(** * editmsg.c: edit or view one stored message in an external editor

    A shallow embedding of [edit_or_view_one_message] and
    [edit_or_view_message].  The file system is a finite map from paths to
    files, the destination store is the list of records committed to it,
    and every call that leaves editmsg.c is answered by an [Env]: the
    behaviour of the collaborators during one invocation.  The C locals
    [rc], [sb] and [mtime] are kept in the machine state, so that every
    [goto bail] carries the value [rc] has at that line. *)

From Stdlib Require Import ZArith Lia Bool List.
From Stdlib.Strings Require Import Byte.
From stdpp Require Import gmap strings list fin_maps.

Local Open Scope Z_scope.

(** ** Data model *)

(** [enum MailboxType] (mailbox.h).  editmsg.c only names [MUTT_MBOX] and
    [MUTT_MMDF]. *)
Inductive MailboxType :=
| MUTT_MAILBOX_ERROR | MUTT_UNKNOWN | MUTT_COMPRESSED | MUTT_IMAP
| MUTT_MAILDIR | MUTT_MBOX | MUTT_MH | MUTT_MMDF | MUTT_NNTP
| MUTT_NOTMUCH | MUTT_POP.

(** [(magic == MUTT_MBOX) || (magic == MUTT_MMDF)] *)
Definition mbox_or_mmdf (magic : MailboxType) : bool :=
  match magic with
  | MUTT_MBOX | MUTT_MMDF => true
  | _ => false
  end.

(** [struct Email]: the flags editmsg.c and the spec's StoredMessage name. *)
Record Email := mkEmail {
  msgno : Z;
  read : bool;
  old : bool;
  deleted : bool;
  purge : bool;
  tagged : bool
}.

(** The message flags passed to [mutt_set_flag] in editmsg.c. *)
Inductive MessageFlag := MUTT_DELETE | MUTT_PURGE | MUTT_READ | MUTT_TAG.

(** Modelled from the spec: [mutt_set_flag] (flags.c) is not part of the
    sources.  Spec 4.4 step 5: "mark the original StoredMessage as deleted,
    purged, and read (and [...] also untagged)": the named flag of the
    message takes the given value, the other flags keep theirs. *)
Definition mutt_set_flag (e : Email) (flag : MessageFlag) (bf : bool) : Email :=
  match flag with
  | MUTT_DELETE => mkEmail (msgno e) (read e) (old e) bf (purge e) (tagged e)
  | MUTT_PURGE => mkEmail (msgno e) (read e) (old e) (deleted e) bf (tagged e)
  | MUTT_READ => mkEmail (msgno e) bf (old e) (deleted e) (purge e) (tagged e)
  | MUTT_TAG => mkEmail (msgno e) (read e) (old e) (deleted e) (purge e) bf
  end.

(** [cur->read = v] and [cur->old = v] *)
Definition set_read (v : bool) (e : Email) : Email :=
  mkEmail (msgno e) v (old e) (deleted e) (purge e) (tagged e).
Definition set_old (v : bool) (e : Email) : Email :=
  mkEmail (msgno e) (read e) v (deleted e) (purge e) (tagged e).

(** A file of the temporary directory, and what [stat] reports of it. *)
Record File := mkFile { f_data : list byte; f_mtime : Z; f_mode : Z }.
Record Stat := mkStat { st_size : Z; st_mtime : Z; st_mode : Z }.

Definition stat_of (f : File) : Stat :=
  mkStat (Z.of_nat (length (f_data f))) (f_mtime f) (f_mode f).

(** <sys/stat.h> *)
Definition S_IWUSR : Z := 0x80.
Definition S_IWGRP : Z := 0x10.
Definition S_IWOTH : Z := 0x02.

(** The constants and the pure helper of other translation units that
    editmsg.c uses (copy.h, mx.h, mutt/string2.h, email/from.c).  Their
    values are not in the sources: they are parameters. *)
Class Externals := {
  CH_NOLEN : Z;
  CH_NOSTATUS : Z;
  CH_FROM : Z;
  CH_FORCE_FROM : Z;
  MUTT_ADD_FROM : Z;
  STRING : Z;
  is_from : list byte -> bool
}.

(** The state outside the function: files, the records committed to the
    destination store, and the two globals the function reads. *)
Record World := mkWorld {
  fs : gmap string File;
  store : list (list byte);
  MboxType : MailboxType;
  DeleteUntag : bool
}.

Definition with_fs (g : gmap string File -> gmap string File) (w : World) : World :=
  mkWorld (g (fs w)) (store w) (MboxType w) (DeleteUntag w).
Definition with_store (g : list (list byte) -> list (list byte)) (w : World) : World :=
  mkWorld (fs w) (g (store w)) (MboxType w) (DeleteUntag w).
Definition with_MboxType (t : MailboxType) (w : World) : World :=
  mkWorld (fs w) (store w) t (DeleteUntag w).

(** What the collaborators do during one invocation of
    [edit_or_view_one_message]: one field per call that leaves the file. *)
Record Env := mkEnv {
  mutt_mktemp : string;                 (* the path mutt_mktemp picks *)
  newfolder_ok : bool;                  (* mx_mbox_open(NULL, tmp, MUTT_NEWFOLDER) != NULL *)
  append_rc : Z;                        (* mutt_append_message *)
  extracted : File;                     (* the surrogate it leaves behind *)
  stat1_fails : bool;                   (* stat, after extraction *)
  truncate_fails : bool;                (* truncate *)
  chmod_fails : bool;                   (* mutt_file_chmod_rm_stat *)
  baseline : Z;                         (* mutt_file_decrease_mtime *)
  editor : option File -> option File;  (* the external editor; None: no file *)
  stat2_fails : bool;                   (* stat, after the editor *)
  fopen_fails : bool;                   (* fopen(tmp, "r") *)
  append_open_fails : bool;             (* mx_mbox_open(m, NULL, MUTT_APPEND) == NULL *)
  open_new : Email -> Z -> option (list byte);
                                        (* mx_msg_open_new: the new record's first bytes *)
  copy_hdr : list byte -> Z -> Z * (list byte * list byte);
                                        (* mutt_copy_hdr: rc, header written, input left *)
  copy_stream : list byte -> list byte; (* mutt_file_copy_stream: bytes written *)
  commit_rc : Z                         (* mx_msg_commit *)
}.

(** The calls that leave editmsg.c, with their arguments and results. *)
Inductive Event :=
| EvError (msg : string)                            (* mutt_error *)
| EvMessage (msg : string)                          (* mutt_message *)
| EvDebug (msg : string)                            (* mutt_debug *)
| EvNewFolder (path : string) (magic : MailboxType) (ok : bool)
| EvAppendMessage (chflags : Z) (rc : Z)
| EvMboxClose
| EvStat (path : string) (r : option Stat)
| EvTruncate (path : string) (len : Z) (rc : Z)
| EvChmodRm (path : string) (mode : Z) (rc : Z)
| EvDecreaseMtime (path : string) (t : Z)
| EvEditFile (path : string)
| EvFopen (path : string) (r : option (list byte))
| EvAppendOpen (ok : bool)
| EvMsgOpenNew (e : Email) (oflags : Z) (ok : bool)
| EvCopyHdr (flags : Z) (rc : Z)
| EvCopyStream
| EvMsgCommit (rc : Z)
| EvMsgClose
| EvUnlink (path : string)
| EvSetFlag (flag : MessageFlag) (bf : bool).

(** ** The control monad: state, call trace and the two ways out *)

(** The machine: the world, the message [cur] points to and the locals of
    [edit_or_view_one_message] that are assigned more than once. *)
Record Machine := mkMachine {
  world : World;
  cur : Email;
  rc : Z;
  sb : Stat;
  mtime : Z
}.

Definition with_world (g : World -> World) (s : Machine) : Machine :=
  mkMachine (g (world s)) (cur s) (rc s) (sb s) (mtime s).
Definition with_cur (g : Email -> Email) (s : Machine) : Machine :=
  mkMachine (world s) (g (cur s)) (rc s) (sb s) (mtime s).
Definition with_rc (v : Z) (s : Machine) : Machine :=
  mkMachine (world s) (cur s) v (sb s) (mtime s).
Definition with_sb (v : Stat) (s : Machine) : Machine :=
  mkMachine (world s) (cur s) (rc s) v (mtime s).
Definition with_mtime (v : Z) (s : Machine) : Machine :=
  mkMachine (world s) (cur s) (rc s) (sb s) v.

(** [Next a]: control falls through; [GotoBail]: [goto bail];
    [Return v]: [return v]. *)
Inductive Flow (A : Type) :=
| Next (a : A)
| GotoBail
| Return (v : Z).
Arguments Next {A} a.
Arguments GotoBail {A}.
Arguments Return {A} v.

Definition M (A : Type) : Type := Machine -> Flow A * Machine * list Event.

#[global] Instance M_ret : MRet M := fun A a s => (Next a, s, []).
#[global] Instance M_bind : MBind M := fun A B f m s =>
  match m s with
  | (Next a, s1, t1) =>
      match f a s1 with
      | (r, s2, t2) => (r, s2, t1 ++ t2)
      end
  | (GotoBail, s1, t1) => (GotoBail, s1, t1)
  | (Return v, s1, t1) => (Return v, s1, t1)
  end.

Definition get {A} (p : Machine -> A) : M A := fun s => (Next (p s), s, []).
Definition modify (g : Machine -> Machine) : M unit := fun s => (Next tt, g s, []).
Definition emit (e : Event) : M unit := fun s => (Next tt, s, [e]).
Definition goto_bail {A} : M A := fun s => (GotoBail, s, []).
Definition return_ {A} (v : Z) : M A := fun s => (Return v, s, []).

(** [body; bail: epilogue]: the label is reached by falling through or by
    [goto bail]; a [return] inside [body] leaves the function. *)
Definition at_bail (body : M unit) (epilogue : M unit) : M unit := fun s =>
  match body s with
  | (Next _, s1, t1) | (GotoBail, s1, t1) =>
      match epilogue s1 with
      | (r, s2, t2) => (r, s2, t1 ++ t2)
      end
  | (Return v, s1, t1) => (Return v, s1, t1)
  end.

Definition when (b : bool) (m : M unit) : M unit := if b then m else mret tt.

Definition mutt_error (msg : string) : M unit := emit (EvError msg).
Definition mutt_message (msg : string) : M unit := emit (EvMessage msg).
Definition mutt_debug (msg : string) : M unit := emit (EvDebug msg).

(** [v = call(...)] for the local [rc] *)
Definition set_rc (v : Z) : M unit := modify (with_rc v).

(** ** The collaborators, as editmsg.c sees them

    The functions of the store, of the header copy and of the editor are
    not part of the sources (mx.c, copy.c, mutt/file.c, curs_lib.c).  Each
    is modelled after its contract in section 6 of the spec: the result is
    the answer of the collaborator, taken from [Env], and the effect on the
    world is the one the contract names.  [stat], [truncate], [fopen],
    [fgets] and [unlink] are those of the C library. *)

Definition is_some {A} (o : option A) : bool :=
  match o with Some _ => true | None => false end.

(** Modelled from the spec: [mx_mbox_open(NULL, tmp, MUTT_NEWFOLDER)]
    (mx.c).  Spec 4.1, createSurrogate: "initializes it as an empty
    single-message store container", or fails.  The format of the container
    is the global [MboxType] of that moment. *)
Definition mx_mbox_open_newfolder (env : Env) (tmp : string) : M bool :=
  magic ← get (fun s => MboxType (world s));
  emit (EvNewFolder tmp magic (newfolder_ok env));;
  when (newfolder_ok env)
    (modify (with_world (with_fs
       <[tmp := mkFile [] (f_mtime (extracted env)) (f_mode (extracted env))]>)));;
  mret (newfolder_ok env).

(** Modelled from the spec: [mutt_append_message(tmpctx->mailbox, m, cur,
    0, chflags)] (copy.c).  Spec 4.3, extractOne: "appends exactly one
    record built from message"; what is in the surrogate afterwards, and
    the result, are the collaborator's. *)
Definition mutt_append_message (env : Env) (tmp : string) (chflags : Z) : M Z :=
  modify (with_world (with_fs <[tmp := extracted env]>));;
  emit (EvAppendMessage chflags (append_rc env));;
  mret (append_rc env).

Definition mx_mbox_close : M unit := emit EvMboxClose.

(** [stat(path, &sb)]: fills [sb] and yields 0, or yields -1. *)
Definition stat (fails : bool) (path : string) : M Z :=
  w ← get world;
  match (if fails then None else stat_of <$> fs w !! path) with
  | Some st => emit (EvStat path (Some st));; modify (with_sb st);; mret 0
  | None => emit (EvStat path None);; mret (-1)
  end.

(** [truncate(path, len)]: the file keeps its first [len] bytes (and is
    padded with zero bytes when it was shorter). *)
Definition truncate (fails : bool) (path : string) (len : Z) : M Z :=
  w ← get world;
  match (if fails then None else fs w !! path) with
  | Some f =>
      modify (with_world (with_fs
        <[path := mkFile (resize (Z.to_nat len) x00 (f_data f)) (f_mtime f) (f_mode f)]>));;
      emit (EvTruncate path len 0);;
      mret 0
  | None => emit (EvTruncate path len (-1));; mret (-1)
  end.

(** Modelled from the spec: [mutt_file_chmod_rm_stat] (mutt/file.c) is not
    part of the sources.  Spec 4.1, restrictToReadOnly: "clears all write
    permission bits on the surrogate": the mode becomes the mode of [st]
    without the bits of [mode]. *)
Definition mutt_file_chmod_rm_stat (fails : bool) (path : string) (mode : Z)
    (st : Stat) : M Z :=
  w ← get world;
  match (if fails then None else fs w !! path) with
  | Some f =>
      modify (with_world (with_fs
        <[path := mkFile (f_data f) (f_mtime f) (Z.land (st_mode st) (Z.lnot mode))]>));;
      emit (EvChmodRm path mode 0);;
      mret 0
  | None => emit (EvChmodRm path mode (-1));; mret (-1)
  end.

(** Modelled from the spec: [mutt_file_decrease_mtime(path, NULL)]
    (mutt/file.c).  Spec 4.2, captureBaseline: "the returned value is the
    floor used for comparison": the reference timestamp is the
    collaborator's answer. *)
Definition mutt_file_decrease_mtime (env : Env) (path : string) : M Z :=
  emit (EvDecreaseMtime path (baseline env));;
  mret (baseline env).

(** Modelled from the spec: [mutt_edit_file(NONULL(Editor), path)]
    (curs_lib.c).  Spec 6, runEditor: "only resulting file state matters":
    the editor may rewrite, leave, create or remove the file. *)
Definition mutt_edit_file (env : Env) (path : string) : M unit :=
  modify (with_world (with_fs (partial_alter (editor env) path)));;
  emit (EvEditFile path).

(** [fopen(path, "r")]: the stream, or NULL. *)
Definition fopen (fails : bool) (path : string) : M (option (list byte)) :=
  w ← get world;
  let r := if fails then None else f_data <$> fs w !! path in
  emit (EvFopen path r);;
  mret r.

(** Modelled from the spec: [mx_mbox_open(m, NULL, MUTT_APPEND)] (mx.c).
    Spec 6: "open(path|handle, mode) -> StoreHandle | error": the context
    of mailbox [m], of which editmsg.c reads [tmpctx->mailbox->magic], or
    NULL. *)
Definition mx_mbox_open_append (env : Env) (m_magic : MailboxType)
    : M (option MailboxType) :=
  emit (EvAppendOpen (negb (append_open_fails env)));;
  mret (if append_open_fails env then None else Some m_magic).

(** [fgets(buf, size, fp)] on a stream at its start: at most [size - 1]
    bytes, up to and with the first newline; NULL at end of file. *)
Fixpoint fgets_line (n : nat) (data : list byte) : list byte :=
  match n, data with
  | S n', b :: rest =>
      if Byte.eqb b x0a then [b] else b :: fgets_line n' rest
  | _, _ => []
  end.

Definition fgets (size : Z) (data : list byte) : option (list byte) :=
  match data with
  | [] => None
  | _ => Some (fgets_line (Z.to_nat (size - 1)) data)
  end.

(** Modelled from the spec: [mx_msg_open_new(tmpctx->mailbox, cur, of)]
    (mx.c).  Spec 6: "openNewRecord(handle, message, flags) -> RecordHandle
    | null".  The call sees the message as it is at that moment; the record
    starts with the bytes the collaborator writes. *)
Definition mx_msg_open_new (env : Env) (oflags : Z) : M (option (list byte)) :=
  e ← get cur;
  emit (EvMsgOpenNew e oflags (is_some (open_new env e oflags)));;
  mret (open_new env e oflags).

(** Modelled from the spec: [mutt_copy_hdr(fp, msg->fp, 0, sb.st_size,
    flags, NULL)] (copy.c).  Spec 6: "copyHeader(sourceFile, destFile,
    options, sizeLimit) -> ok|error": the result, the bytes written to the
    record and the input left in [fp]. *)
Definition mutt_copy_hdr (env : Env) (data : list byte) (flags : Z)
    : M (Z * (list byte * list byte)) :=
  emit (EvCopyHdr flags (fst (copy_hdr env data flags)));;
  mret (copy_hdr env data flags).

(** Modelled from the spec: [mutt_file_copy_stream(fp, msg->fp)]
    (mutt/file.c).  Spec 4.3: "the raw remaining body bytes": the bytes
    that reach the record. *)
Definition mutt_file_copy_stream (env : Env) (rest : list byte) : M (list byte) :=
  emit EvCopyStream;;
  mret (copy_stream env rest).

(** Modelled from the spec: [mx_msg_commit(tmpctx->mailbox, msg)] (mx.c).
    Spec 6: "commitRecord(handle, RecordHandle) -> ok|error": result 0 adds
    the record to the destination store. *)
Definition mx_msg_commit (env : Env) (msg_fp : list byte) : M Z :=
  when (commit_rc env =? 0)
    (modify (with_world (with_store (fun l => l ++ [msg_fp]))));;
  emit (EvMsgCommit (commit_rc env));;
  mret (commit_rc env).

Definition mx_msg_close : M unit := emit EvMsgClose.

Definition unlink (path : string) : M unit :=
  modify (with_world (with_fs (delete path)));;
  emit (EvUnlink path).

(** [mutt_set_flag(Context->mailbox, cur, flag, bf)] on the message [cur]
    points to. *)
Definition set_flag (flag : MessageFlag) (bf : bool) : M unit :=
  modify (with_cur (fun e => mutt_set_flag e flag bf));;
  emit (EvSetFlag flag bf).

(** ** edit_or_view_one_message *)

(** The result of one call: the value returned, the message [cur] points
    to, the world, and the calls made, in order. *)
Record Outcome := mkOutcome {
  o_rc : Z;
  o_cur : Email;
  o_world : World;
  o_trace : list Event
}.

Section Editmsg.
Context `{Externals}.

(** Lines 197-208: the flags [of] and [cf], from the format of the
    destination and the result of [fgets]. *)
Definition header_copy_mode (magic : MailboxType) (line : option (list byte))
    : Z * Z :=
  let of0 := 0 in
  let cf0 := if mbox_or_mmdf magic then 0 else CH_NOSTATUS in
  if match line with Some buf => is_from buf | None => false end
  then (of0, if mbox_or_mmdf magic then Z.lor CH_FROM CH_FORCE_FROM else cf0)
  else (MUTT_ADD_FROM, cf0).

(** Lines 83-238, up to the label [bail]. *)
Definition one_message_body (edit : bool) (m_magic : MailboxType) (env : Env)
    (tmp : string) : M unit :=
  omagic ← get (fun s => MboxType (world s));
  modify (with_world (with_MboxType MUTT_MBOX));;
  tmpctx ← mx_mbox_open_newfolder env tmp;
  modify (with_world (with_MboxType omagic));;
  when (negb tmpctx)
    (mutt_error "could not create temporary folder: %s";;
     return_ (-1));;
  let chflags :=
    Z.lor CH_NOLEN (if mbox_or_mmdf m_magic then 0 else CH_NOSTATUS) in
  r ← mutt_append_message env tmp chflags;
  set_rc r;;
  mx_mbox_close;;
  when (r =? -1)
    (mutt_error "could not write temporary mail folder: %s";;
     goto_bail);;
  r ← stat (stat1_fails env) tmp;
  set_rc r;;
  when (r =? -1)
    (mutt_error "Can't stat %s: %s";;
     goto_bail);;
  sb1 ← get sb;
  trunc_failed ←
    (if negb (st_size sb1 =? 0)
     then t ← truncate (truncate_fails env) tmp (st_size sb1 - 1); mret (t =? -1)
     else mret false);
  when trunc_failed
    (mutt_error "could not truncate temporary mail folder: %s";;
     goto_bail);;
  when (negb edit)
    (r ← mutt_file_chmod_rm_stat (chmod_fails env) tmp
           (Z.lor (Z.lor S_IWUSR S_IWGRP) S_IWOTH) sb1;
     set_rc r;;
     when (r =? -1)
       (mutt_debug "Could not remove write permissions of %s: %s"));;
  t ← mutt_file_decrease_mtime env tmp;
  modify (with_mtime t);;
  mutt_edit_file env tmp;;
  r ← stat (stat2_fails env) tmp;
  set_rc r;;
  when (r =? -1)
    (mutt_error "Can't stat %s: %s";;
     goto_bail);;
  sb2 ← get sb;
  mt ← get mtime;
  when (st_size sb2 =? 0)
    (mutt_message "Message file is empty";;
     set_rc 1;;
     goto_bail);;
  when (edit && (st_mtime sb2 =? mt))
    (mutt_message "Message not modified";;
     set_rc 1;;
     goto_bail);;
  when (negb edit && negb (st_mtime sb2 =? mt))
    (mutt_message "Message of read-only mailbox modified! Ignoring changes.";;
     set_rc 1;;
     goto_bail);;
  when (negb edit)
    (set_rc 1;;
     goto_bail);;
  fp ← fopen (fopen_fails env) tmp;
  match fp with
  | None =>
      set_rc (-1);;
      mutt_error "Can't open message file: %s";;
      goto_bail
  | Some data =>
  tmpctx ← mx_mbox_open_append env m_magic;
  match tmpctx with
  | None =>
      set_rc (-1);;
      mutt_error "Can't append to folder: %s";;
      goto_bail
  | Some magic =>
  let '(oflags, cf) := header_copy_mode magic (fgets STRING data) in
  o_read ← get (fun s => read (cur s));
  o_old ← get (fun s => old (cur s));
  modify (with_cur (set_read false));;
  modify (with_cur (set_old false));;
  msg ← mx_msg_open_new env oflags;
  modify (with_cur (set_read o_read));;
  modify (with_cur (set_old o_old));;
  match msg with
  | None =>
      mutt_error "Can't append to folder: %s";;
      mx_mbox_close;;
      goto_bail
  | Some msg_fp =>
  '(r, (hdr, rest)) ← mutt_copy_hdr env data (Z.lor CH_NOLEN cf);
  set_rc r;;
  body ←
    (if r =? 0
     then copied ← mutt_file_copy_stream env rest; mret (x0a :: copied)
     else mret []);
  r ← mx_msg_commit env (msg_fp ++ hdr ++ body);
  set_rc r;;
  mx_msg_close;;
  mx_mbox_close
  end end end.

(** Lines 240-258, from the label [bail] on.  ([mutt_file_fclose] has no
    effect the model keeps.) *)
Definition one_message_bail (tmp : string) : M unit :=
  r ← get rc;
  when (r >=? 0) (unlink tmp);;
  (if r =? 0
   then
     set_flag MUTT_DELETE true;;
     set_flag MUTT_PURGE true;;
     set_flag MUTT_READ true;;
     du ← get (fun s => DeleteUntag (world s));
     when du (set_flag MUTT_TAG false)
   else
     when (r =? -1) (mutt_message "Error. Preserving temporary file: %s"));;
  return_ r.

(** The locals at entry: [mtime = 0]; [rc] and [sb] are written before
    they are read. *)
Definition entry (w : World) (e : Email) : Machine :=
  mkMachine w e 0 (mkStat 0 0 0) 0.

Definition edit_or_view_one_message (edit : bool) (m_magic : MailboxType)
    (e : Email) (env : Env) (w : World) : Outcome :=
  let tmp := mutt_mktemp env in
  match at_bail (one_message_body edit m_magic env tmp) (one_message_bail tmp)
          (entry w e) with
  | (Return v, s, t) => mkOutcome v (cur s) (world s) t
  | (_, s, t) => mkOutcome (rc s) (cur s) (world s) t
  end.

End Editmsg.

(** ** edit_or_view_message *)

(** [ctx->mailbox]: its format and the array [emails]; [msg_count] is the
    length of the array.  A message a pointer leads to is passed and
    handed back by value. *)
Record Mailbox := mkMailbox {
  magic : MailboxType;
  emails : list Email
}.

Definition msg_count (m : Mailbox) : nat := length (emails m).

(** Modelled from the spec: [message_is_tagged] (context.c) is not part of
    the sources.  Spec 4.5: "every message flagged tagged": the flag of the
    message at the index. *)
Definition message_is_tagged (m : Mailbox) (i : nat) : bool :=
  match emails m !! i with
  | Some e => tagged e
  | None => false
  end.

(** The result of [edit_or_view_message]: the value returned, the mailbox,
    the message [e] points to (when given), the world, the calls that
    leave the file, and the calls of [edit_or_view_one_message] in the order
    they were made: the index of the message (0 for a single target) and
    the outcome. *)
Record BatchOutcome := mkBatch {
  b_rc : Z;
  b_mailbox : Mailbox;
  b_target : option Email;
  b_world : World;
  b_trace : list Event;
  b_calls : list (nat * Outcome)
}.

Section Batch.
Context `{Externals}.

(** Lines 275-284: the loop from index [i] on, with [n] iterations left.
    [envs i] is what the collaborators do while message [i] is worked on. *)
Fixpoint tagged_loop (edit : bool) (envs : nat -> Env) (n i : nat)
    (m : Mailbox) (w : World) : BatchOutcome :=
  match n with
  | O => mkBatch 0 m None w [] []
  | S n' =>
      if negb (message_is_tagged m i) then tagged_loop edit envs n' (S i) m w
      else
        match emails m !! i with
        | None => mkBatch 0 m None w [] []
        | Some e =>
            let o := edit_or_view_one_message edit (magic m) e (envs i) w in
            let m' := mkMailbox (magic m) (<[i := o_cur o]> (emails m)) in
            if o_rc o =? -1
            then mkBatch (-1) m' None (o_world o) (o_trace o) [(i, o)]
            else
              let r := tagged_loop edit envs n' (S i) m' (o_world o) in
              mkBatch (b_rc r) (b_mailbox r) None (b_world r)
                (o_trace o ++ b_trace r) ((i, o) :: b_calls r)
        end
  end.

(** For a single target, the collaborators behave as [envs 0]. *)
Definition edit_or_view_message (edit : bool) (m : Mailbox) (e : option Email)
    (envs : nat -> Env) (w : World) : BatchOutcome :=
  match e with
  | Some e =>
      let o := edit_or_view_one_message edit (magic m) e (envs 0%nat) w in
      mkBatch (o_rc o) m (Some (o_cur o)) (o_world o) (o_trace o) [(0%nat, o)]
  | None => tagged_loop edit envs (msg_count m) 0 m w
  end.

Definition mutt_edit_message (m : Mailbox) (e : option Email) :=
  edit_or_view_message true m e.
Definition mutt_view_message (m : Mailbox) (e : option Email) :=
  edit_or_view_message false m e.

End Batch.

(** ** Reading a call trace *)

(** The calls of the reintegration step (spec 4.4, step 4): re-opening the
    surrogate and every operation on the destination store. *)
Definition reintegration_call (ev : Event) : bool :=
  match ev with
  | EvFopen _ _ | EvAppendOpen _ | EvMsgOpenNew _ _ _ | EvCopyHdr _ _
  | EvCopyStream | EvMsgCommit _ | EvMsgClose => true
  | _ => false
  end.

Definition no_reintegration (t : list Event) : Prop :=
  forallb (fun ev => negb (reintegration_call ev)) t = true.

(** The reference timestamp captured before the editor ran, and what
    [stat] reported right after the editor returned. *)
Fixpoint post_edit (t : list Event) : option (Z * option Stat) :=
  match t with
  | EvDecreaseMtime _ base :: EvEditFile _ :: EvStat _ r :: _ => Some (base, r)
  | _ :: t' => post_edit t'
  | [] => None
  end.

(** The size [stat] reported after extraction, and the [truncate] call that
    followed it, if any. *)
Fixpoint trim_call (t : list Event) : option (Z * option (Z * Z)) :=
  match t with
  | EvAppendMessage _ _ :: EvMboxClose :: EvStat _ (Some st) :: t' =>
      Some (st_size st,
            match t' with
            | EvTruncate _ len r :: _ => Some (len, r)
            | _ => None
            end)
  | _ :: t' => trim_call t'
  | [] => None
  end.

(** What the destination sees of the first line of the surrogate. *)
Definition first_line_is_from `{Externals} (data : list byte) : bool :=
  match fgets STRING data with
  | Some buf => is_from buf
  | None => false
  end.

(** The indices of the tagged messages, in stored order. *)
Definition tagged_indices (m : Mailbox) : list nat :=
  filter (fun i => message_is_tagged m i = true) (seq 0 (msg_count m)).

(** Each call of a list works on a tagged message of [m], in the world the
    call before it left. *)
Fixpoint chained `{Externals} (edit : bool) (m : Mailbox) (envs : nat -> Env)
    (w : World) (calls : list (nat * Outcome)) : Prop :=
  match calls with
  | [] => True
  | (i, o) :: rest =>
      (exists e, emails m !! i = Some e /\ tagged e = true /\
                 o = edit_or_view_one_message edit (magic m) e (envs i) w) /\
      chained edit m envs (o_world o) rest
  end.

(** The world the last call of a list left. *)
Fixpoint last_world (w : World) (calls : list (nat * Outcome)) : World :=
  match calls with
  | [] => w
  | (_, o) :: rest => last_world (o_world o) rest
  end.

(** The kind of a call: which function was called. *)
Definition kind (ev : Event) : nat :=
  match ev with
  | EvError _ => 0 | EvMessage _ => 1 | EvDebug _ => 2
  | EvNewFolder _ _ _ => 3 | EvAppendMessage _ _ => 4 | EvMboxClose => 5
  | EvStat _ _ => 6 | EvTruncate _ _ _ => 7 | EvChmodRm _ _ _ => 8
  | EvDecreaseMtime _ _ => 9 | EvEditFile _ => 10 | EvFopen _ _ => 11
  | EvAppendOpen _ => 12 | EvMsgOpenNew _ _ _ => 13 | EvCopyHdr _ _ => 14
  | EvCopyStream => 15 | EvMsgCommit _ => 16 | EvMsgClose => 17
  | EvUnlink _ => 18 | EvSetFlag _ _ => 19
  end%nat.

Definition has_kind (ev : Event) (t : list Event) : bool :=
  existsb (fun x => Nat.eqb (kind x) (kind ev)) t.

(** The machine when control reaches the label [bail] (or leaves by the
    early [return]). *)
Definition at_label_bail `{Externals} (edit : bool) (m_magic : MailboxType)
    (e : Email) (env : Env) (w : World) : Machine :=
  snd (fst (one_message_body edit m_magic env (mutt_mktemp env) (entry w e))).

(** Spec 4.5, in the spec's words: "running the Orchestrator on every
    message flagged tagged [...]; stops immediately [...] on the first
    Failed result; otherwise completes after processing all tagged
    messages".  [idx] lists the tagged messages in stored order. *)
Fixpoint run_calls `{Externals} (edit : bool) (envs : nat -> Env)
    (m : Mailbox) (idx : list nat) (w : World) : list (nat * Outcome) :=
  match idx with
  | [] => []
  | i :: rest =>
      match emails m !! i with
      | None => []
      | Some e =>
          let o := edit_or_view_one_message edit (magic m) e (envs i) w in
          (i, o) ::
          (if o_rc o =? -1 then [] else run_calls edit envs m rest (o_world o))
      end
  end.

Definition failed (c : nat * Outcome) : bool := o_rc (snd c) =? -1.

(** The array after the calls: each call leaves its message at its index. *)
Definition write_back (es : list Email) (calls : list (nat * Outcome))
    : list Email :=
  foldl (fun es c => <[fst c := o_cur (snd c)]> es) es calls.

(** ** Concrete inputs *)

(** An instance of the parameters: the flag bits are distinct, the buffer
    holds 256 bytes, and a separator line is a line that starts with
    "From ". *)
Definition starts_with_From (l : list byte) : bool :=
  match l with
  | x46 :: x72 :: x6f :: x6d :: x20 :: _ => true
  | _ => false
  end.

Definition sample_externals : Externals := {|
  CH_NOLEN := 4096;
  CH_NOSTATUS := 64;
  CH_FROM := 16;
  CH_FORCE_FROM := 16384;
  MUTT_ADD_FROM := 1;
  STRING := 256;
  is_from := starts_with_From
|}.

(** A header ends at the first empty line. *)
Fixpoint split_header (d : list byte) : list byte * list byte :=
  match d with
  | [] => ([], [])
  | b :: rest =>
      match b, rest with
      | x0a, x0a :: body => ([x0a], body)
      | _, _ => let '(h, r) := split_header rest in (b :: h, r)
      end
  end.

(** An mbox record: the lines "From a@b" and "Subject: x", an empty line,
    "hello", and the newline of the record separator. *)
Definition hello_mbox : list byte :=
  [x46; x72; x6f; x6d; x20; x61; x40; x62; x0a;
   x53; x75; x62; x6a; x65; x63; x74; x3a; x20; x78; x0a; x0a;
   x68; x65; x6c; x6c; x6f; x0a; x0a].

(** Editors: one appends "world" and a newline, one leaves the file as it
    is, one empties it. *)
Definition append_world (f : option File) : option File :=
  match f with
  | Some f => Some (mkFile (f_data f ++ [x77; x6f; x72; x6c; x64; x0a]) 105 (f_mode f))
  | None => None
  end.
Definition leave_alone (f : option File) : option File := f.
Definition empty_out (f : option File) : option File :=
  match f with
  | Some f => Some (mkFile [] 105 (f_mode f))
  | None => None
  end.

(** A run in which every collaborator succeeds, but for the choices given. *)
Definition sample_env (path : string) (trunc_fails : bool)
    (ed : option File -> option File) (opened : option (list byte))
    (hdr_rc commit : Z) : Env := {|
  mutt_mktemp := path;
  newfolder_ok := true;
  append_rc := 0;
  extracted := mkFile hello_mbox 100 0x180;
  stat1_fails := false;
  truncate_fails := trunc_fails;
  chmod_fails := false;
  baseline := 100;
  editor := ed;
  stat2_fails := false;
  fopen_fails := false;
  append_open_fails := false;
  open_new := fun _ _ => opened;
  copy_hdr := fun d _ => (hdr_rc, split_header d);
  copy_stream := fun d => d;
  commit_rc := commit
|}.

Definition good_edit (path : string) : Env :=
  sample_env path false append_world (Some []) 0 0.

Definition empty_world : World := mkWorld ∅ [] MUTT_MAILDIR true.

(** A message that is read, old and tagged. *)
Definition seen_message (n : Z) : Email := mkEmail n true true false false true.
Definition untagged_message (n : Z) : Email := mkEmail n false false false false false.

(** The surrogate after the trim and after [append_world]. *)
Definition hello_world : list byte :=
  take 27 hello_mbox ++ [x77; x6f; x72; x6c; x64; x0a].

(** Three messages for the batch driver: two tagged ones around an
    untagged one, each with a temporary path of its own. *)
Definition three_messages : Mailbox :=
  mkMailbox MUTT_MBOX [seen_message 1; untagged_message 2; seen_message 3].

Definition path_of (i : nat) : string :=
  match i with
  | O => "/tmp/neomutt-0"
  | S O => "/tmp/neomutt-1"
  | _ => "/tmp/neomutt-2"
  end.

(** No editor touches its file. *)
Definition nobody_edits (i : nat) : Env :=
  sample_env (path_of i) false leave_alone (Some []) 0 0.

(** The commit of the second message fails. *)
Definition second_commit_fails (i : nat) : Env :=
  sample_env (path_of i) false append_world (Some [])
    0 (match i with S O => -1 | _ => 0 end).

(** An editor that removes the file. *)
Definition remove_file (f : option File) : option File := None.

(** [env], but the temporary folder cannot be created. *)
Definition without_folder (env : Env) : Env :=
  mkEnv (mutt_mktemp env) false (append_rc env) (extracted env)
    (stat1_fails env) (truncate_fails env) (chmod_fails env) (baseline env)
    (editor env) (stat2_fails env) (fopen_fails env) (append_open_fails env)
    (open_new env) (copy_hdr env) (copy_stream env) (commit_rc env).

(** [env], but [mutt_append_message] returns -1. *)
Definition without_extraction (env : Env) : Env :=
  mkEnv (mutt_mktemp env) (newfolder_ok env) (-1) (extracted env)
    (stat1_fails env) (truncate_fails env) (chmod_fails env) (baseline env)
    (editor env) (stat2_fails env) (fopen_fails env) (append_open_fails env)
    (open_new env) (copy_hdr env) (copy_stream env) (commit_rc env).

(** A world with one file that is not a surrogate. *)
Definition notes_file : File := mkFile [x68; x69; x0a] 50 0x1a4.
Definition world_with_notes : World :=
  mkWorld {[ "/home/u/notes" := notes_file ]} [] MUTT_MAILDIR false.

(** "From a@b", the first line of [hello_mbox] without its newline. *)
Definition from_line : list byte :=
  [x46; x72; x6f; x6d; x20; x61; x40; x62].

(** ** Symbolic execution of the control monad *)

(** The scrutinee that keeps a term from reducing. *)
Ltac blocker t :=
  match t with
  | match ?x with _ => _ end => blocker x
  | ?f _ => blocker f
  | match ?x with _ => _ end => constr:(x)
  end.

Ltac run_monad H :=
  cbv beta iota zeta delta
      [mbind mret M_bind M_ret get modify emit goto_bail return_ when at_bail
       set_rc mutt_error mutt_message mutt_debug
       mx_mbox_open_newfolder mutt_append_message mx_mbox_close stat truncate
       mutt_file_chmod_rm_stat mutt_file_decrease_mtime mutt_edit_file fopen
       mx_mbox_open_append mx_msg_open_new mutt_copy_hdr mutt_file_copy_stream
       mx_msg_commit mx_msg_close unlink set_flag
       with_world with_cur with_rc with_sb with_mtime with_fs with_store
       with_MboxType entry] in H.

Ltac tidy H :=
  cbn [world cur rc sb mtime fs store MboxType DeleteUntag is_some
       negb andb fst snd app fmap option_fmap option_map
       st_size st_mtime st_mode stat_of f_data f_mtime f_mode
       Z.eqb Z.geb Z.compare Pos.compare Pos.compare_cont Pos.eqb CompOpp] in H.

Ltac reduce_in H :=
  run_monad H; tidy H;
  rewrite ?lookup_insert_eq, ?lookup_partial_alter_eq, ?lookup_delete_eq in H;
  tidy H.

Ltac z_facts :=
  repeat match goal with
  | E : (_ =? _) = true |- _ => apply Z.eqb_eq in E
  | E : (_ =? _) = false |- _ => apply Z.eqb_neq in E
  | E : (_ >=? _) = true |- _ => rewrite Z.geb_leb in E; apply Z.leb_le in E
  | E : (_ >=? _) = false |- _ => rewrite Z.geb_leb in E; apply Z.leb_gt in E
  end.

Ltac prune := try solve [exfalso; z_facts; lia].

(** Case analysis on the blocking scrutinee of [H : _ = t]; a test
    [a =? c] that holds is turned into a rewrite of [a]. *)
Ltac split_on H :=
  match type of H with
  | _ = ?t =>
      let b := blocker t in
      let E := fresh "E" in
      destruct b eqn:E;
      try match type of E with
          | (?a =? ?c) = true =>
              let E' := fresh "E" in
              pose proof (proj1 (Z.eqb_eq a c) E) as E'; rewrite ?E' in H
          end;
      prune
  end.

(** Runs the function of [H : o = edit_or_view_one_message ...] along every
    path; each goal is one path, with the tests taken as hypotheses. *)
Ltac exec H :=
  unfold edit_or_view_one_message, one_message_body, one_message_bail in H;
  repeat (reduce_in H; split_on H);
  reduce_in H.

Lemma In_has_kind ev t : In ev t -> has_kind ev t = true.
Proof.
  unfold has_kind. intros Hin. apply existsb_exists. exists ev.
  split; [assumption | apply Nat.eqb_refl].
Qed.

Lemma In_skip ev x t :
  Nat.eqb (kind x) (kind ev) = false -> In ev (x :: t) -> In ev t.
Proof.
  intros Hk [->|Hin]; [|assumption].
  rewrite Nat.eqb_refl in Hk. discriminate.
Qed.

(** Closes a goal with a hypothesis [In ev t] where no call of [t] is of
    the kind of [ev]. *)
Ltac absent Hin :=
  apply In_has_kind in Hin;
  cbn [has_kind existsb kind Nat.eqb orb] in Hin;
  discriminate Hin.

(** Membership in a trace that is a list of known calls: one goal for
    each call of the list that is of the kind looked for. *)
Ltac find_in H :=
  lazymatch type of H with
  | In ?ev (?x :: ?t) =>
      first [ apply (In_skip ev x t eq_refl) in H; find_in H
            | destruct H as [H|H];
              [ first [ discriminate H | injection H as ?; subst | clear H ]
              | find_in H ] ]
  | In _ [] => destruct H
  end.

(** Finds a call in a trace that is a list of known calls. *)
Ltac here := cbn [In]; repeat (first [left; reflexivity | right]).

Ltac in_trace :=
  repeat match goal with
  | H : In _ (_ :: _) |- _ => find_in H
  | H : In _ [] |- _ => destruct H
  end.

(** Lookups at a path other than the one written. *)
Ltac other_path :=
  repeat first [ rewrite lookup_delete_ne by congruence
               | rewrite lookup_partial_alter_ne by congruence
               | rewrite lookup_insert_ne by congruence ].

Ltac edit_is_true :=
  match goal with
  | E : negb ?b = false |- ?b = true =>
      destruct b; cbn in E; [reflexivity | discriminate E]
  end.

(** The tests of a path, as propositions. *)
Ltac bool_facts :=
  z_facts;
  repeat match goal with
  | E : _ && _ = true |- _ => apply andb_true_iff in E; destruct E
  | E : _ && _ = false |- _ => apply andb_false_iff in E; destruct E
  | E : negb _ = true |- _ => apply negb_true_iff in E
  | E : negb _ = false |- _ => apply negb_false_iff in E
  | E : (_ =? _) = true |- _ => apply Z.eqb_eq in E
  | E : (_ =? _) = false |- _ => apply Z.eqb_neq in E
  end.

(** ** Properties of edit_or_view_one_message *)

Section OneMessage.
Context `{Externals}.

(** What one call does to the message: nothing unless it returns 0; the
    new record is always opened with [read] and [old] cleared. *)
Lemma message_frame edit magic e env w :
  let o := edit_or_view_one_message edit magic e env w in
  (o_rc o <> 0 ->
     o_cur o = e /\ forall flag bf, ~ In (EvSetFlag flag bf) (o_trace o)) /\
  (o_rc o = 0 ->
     o_cur o =
       (if DeleteUntag w
        then fun x => mutt_set_flag x MUTT_TAG false
        else fun x => x)
       (mutt_set_flag
          (mutt_set_flag (mutt_set_flag e MUTT_DELETE true) MUTT_PURGE true)
          MUTT_READ true) /\
     In (EvSetFlag MUTT_DELETE true) (o_trace o) /\
     In (EvSetFlag MUTT_PURGE true) (o_trace o) /\
     In (EvSetFlag MUTT_READ true) (o_trace o) /\
     (In (EvSetFlag MUTT_TAG false) (o_trace o) <-> DeleteUntag w = true)) /\
  (forall e' oflags ok, In (EvMsgOpenNew e' oflags ok) (o_trace o) ->
     e' = set_old false (set_read false e)).
Proof.
  intros o. remember o as o' eqn:Ho. subst o. exec Ho.
  all: subst o'; cbn [o_rc o_cur o_trace]; split; [|split].
  all: try (intros Hrc; exfalso; z_facts; lia).
  all: try (intros e' oflags ok Hin; in_trace; reflexivity).
  all: try (intros _; split;
            [destruct e; reflexivity | intros flag bf Hin; in_trace]).
  all: intros _; split; [reflexivity|].
  all: split; [here|]; split; [here|]; split; [here|].
  all: split; [intros Hin; in_trace; congruence | intros Hdu].
  all: first [discriminate Hdu | here].
Qed.

(** Until the label [bail] the message keeps every flag it had at entry. *)
Lemma message_restored_at_bail edit magic e env w :
  cur (at_label_bail edit magic e env w) = e.
Proof.
  unfold at_label_bail.
  remember (one_message_body _ _ _ _ _) as r eqn:Hr.
  unfold one_message_body in Hr.
  repeat (reduce_in Hr; split_on Hr); reduce_in Hr.
  all: subst r; cbn [fst snd cur]; try reflexivity.
  all: destruct e; reflexivity.
Qed.

(** The destination store only grows. *)
Lemma store_grows edit magic e env w :
  exists more,
    store (o_world (edit_or_view_one_message edit magic e env w)) =
    store w ++ more.
Proof.
  remember (edit_or_view_one_message edit magic e env w) as o eqn:Ho.
  exec Ho.
  all: subst o; cbn [o_world store].
  all: first [ exists []; rewrite app_nil_r; reflexivity
             | eexists; reflexivity ].
Qed.

(** C4: the header-copy mode follows the first line of the edited
    surrogate and the format of the destination.  In a call that re-opens
    the surrogate with content [data] and opens a new record with flags
    [oflags]: a separator line and an mbox or MMDF destination give no
    [MUTT_ADD_FROM] and header flags [CH_FROM | CH_FORCE_FROM]; any other
    first line gives [MUTT_ADD_FROM], for every format; a separator line
    and another format give neither, only the [CH_NOSTATUS] of such
    formats. *)
Theorem header_mode_by_first_line edit magic e env w data e' oflags ok :
  let o := edit_or_view_one_message edit magic e env w in
  let header_flags cf :=
    forall flags r, In (EvCopyHdr flags r) (o_trace o) ->
                    flags = Z.lor CH_NOLEN cf in
  In (EvFopen (mutt_mktemp env) (Some data)) (o_trace o) ->
  In (EvMsgOpenNew e' oflags ok) (o_trace o) ->
  (first_line_is_from data = true -> mbox_or_mmdf magic = true ->
     oflags = 0 /\ header_flags (Z.lor CH_FROM CH_FORCE_FROM)) /\
  (first_line_is_from data = false ->
     oflags = MUTT_ADD_FROM /\
     header_flags (if mbox_or_mmdf magic then 0 else CH_NOSTATUS)) /\
  (first_line_is_from data = true -> mbox_or_mmdf magic = false ->
     oflags = 0 /\ header_flags CH_NOSTATUS).
Proof.
  intros o. remember o as o' eqn:Ho. subst o. exec Ho.
  all: subst o'; cbv zeta; cbn [o_trace]; intros Hopen Hnew.
  all: try absent Hnew.
  all: in_trace.
  all: unfold first_line_is_from;
       match goal with
       | E : header_copy_mode _ _ = _ |- _ => unfold header_copy_mode in E
       end.
  all: repeat split; intros;
       repeat match goal with
       | Hs : match fgets _ _ with _ => _ end = _,
         E : context [match fgets _ _ with _ => _ end] |- _ => rewrite Hs in E
       | Hm : mbox_or_mmdf _ = _,
         E : context [mbox_or_mmdf _] |- _ => rewrite Hm in E
       end;
       in_trace; try congruence.
  all: match goal with
       | Hm : mbox_or_mmdf _ = _ |- _ => rewrite Hm
       | _ => idtac
       end; try congruence.
  all: destruct (mbox_or_mmdf magic); congruence.
Qed.

(** C5: a call that returns 0 (Committed) sets [MUTT_DELETE], [MUTT_PURGE]
    and [MUTT_READ] on the original message, which is then deleted, purged
    and read, and untags it exactly when [DeleteUntag] is set; a call that
    returns anything else sets no flag at all. *)
Theorem committed_marks_original edit magic e env w :
  let o := edit_or_view_one_message edit magic e env w in
  (o_rc o = 0 ->
     In (EvSetFlag MUTT_DELETE true) (o_trace o) /\
     In (EvSetFlag MUTT_PURGE true) (o_trace o) /\
     In (EvSetFlag MUTT_READ true) (o_trace o) /\
     deleted (o_cur o) = true /\ purge (o_cur o) = true /\
     read (o_cur o) = true /\
     (In (EvSetFlag MUTT_TAG false) (o_trace o) <-> DeleteUntag w = true) /\
     tagged (o_cur o) = (if DeleteUntag w then false else tagged e)) /\
  (o_rc o <> 0 ->
     o_cur o = e /\ forall flag bf, ~ In (EvSetFlag flag bf) (o_trace o)).
Proof.
  intros o. destruct (message_frame edit magic e env w) as (Hne & Heq & _).
  fold o in Hne, Heq. split; [|exact Hne].
  intros Hrc. destruct (Heq Hrc) as (-> & Hd & Hp & Hr & Htag).
  destruct (DeleteUntag w); cbn; auto 10.
Qed.

(** C9: the new record is opened while [read] and [old] of the message
    are cleared (whether or not the open succeeds); when control reaches
    [bail] the message is as it was at entry, on every path; and after a
    result other than 0, [read] and [old] have their values of entry. *)
Theorem read_old_bracket edit magic e env w :
  let o := edit_or_view_one_message edit magic e env w in
  (forall e' oflags ok, In (EvMsgOpenNew e' oflags ok) (o_trace o) ->
     read e' = false /\ old e' = false /\
     e' = set_old false (set_read false e)) /\
  (read (cur (at_label_bail edit magic e env w)) = read e /\
   old (cur (at_label_bail edit magic e env w)) = old e) /\
  (o_rc o <> 0 -> read (o_cur o) = read e /\ old (o_cur o) = old e).
Proof.
  intros o. destruct (message_frame edit magic e env w) as (Hne & _ & Hnew).
  fold o in Hne, Hnew. split; [|split].
  - intros e' oflags ok Hin. rewrite (Hnew _ _ _ Hin). auto.
  - rewrite message_restored_at_bail. auto.
  - intros Hrc. destruct (Hne Hrc) as [-> _]. auto.
Qed.

(** C6: in edit mode, when [stat] after the editor reports the reference
    timestamp and a size that is not zero, the call returns 1 (Unchanged),
    makes no call of the reintegration step, leaves the destination store
    and the message as they were, and removes the surrogate. *)
Theorem unmodified_edit_is_noop magic e env w sb2 :
  let o := edit_or_view_one_message true magic e env w in
  post_edit (o_trace o) = Some (st_mtime sb2, Some sb2) ->
  st_size sb2 <> 0 ->
  o_rc o = 1 /\
  no_reintegration (o_trace o) /\
  store (o_world o) = store w /\
  o_cur o = e /\
  fs (o_world o) !! mutt_mktemp env = None /\
  In (EvMessage "Message not modified") (o_trace o).
Proof.
  intros o. remember o as o' eqn:Ho. subst o. exec Ho.
  all: subst o'; cbn [o_rc o_cur o_trace o_world post_edit]; intros Hpe Hsz;
       try discriminate Hpe.
  all: injection Hpe as Hb Hs; subst.
  all: cbn [st_size st_mtime] in *; try (exfalso; z_facts; lia).
  all: unfold no_reintegration;
       cbn [forallb reintegration_call negb andb fs store].
  all: rewrite ?lookup_delete_eq.
  all: repeat split; try reflexivity; try (destruct e; reflexivity);
       try (cbn [In]; tauto).
Qed.

(** C7, amended: when [stat] after the editor reports size zero, in either
    mode, the call reports "Message file is empty", makes no call of the
    reintegration step, returns 1 (the Unchanged result, not the Failed
    result -1), and removes the surrogate. *)
Theorem empty_file_is_unchanged edit magic e env w base sb2 :
  let o := edit_or_view_one_message edit magic e env w in
  post_edit (o_trace o) = Some (base, Some sb2) ->
  st_size sb2 = 0 ->
  In (EvMessage "Message file is empty") (o_trace o) /\
  no_reintegration (o_trace o) /\
  store (o_world o) = store w /\
  o_rc o = 1 /\
  o_cur o = e /\
  fs (o_world o) !! mutt_mktemp env = None.
Proof.
  intros o. remember o as o' eqn:Ho. subst o. exec Ho.
  all: subst o'; cbn [o_rc o_cur o_trace o_world post_edit]; intros Hpe Hsz;
       try discriminate Hpe.
  all: injection Hpe as Hb Hs; subst.
  all: cbn [st_size st_mtime] in *; try (exfalso; z_facts; lia).
  all: unfold no_reintegration;
       cbn [forallb reintegration_call negb andb fs store].
  all: rewrite ?lookup_delete_eq.
  all: repeat split; try reflexivity; try (destruct e; reflexivity);
       try (cbn [In]; tauto).
Qed.

(** A [truncate] that succeeds leaves exactly [len] bytes. *)
Lemma truncate_leaves_len path len f s :
  fs (world s) !! path = Some f -> 0 <= len ->
  exists s', truncate false path len s = (Next 0, s', [EvTruncate path len 0]) /\
    f_data <$> fs (world s') !! path =
      Some (resize (Z.to_nat len) x00 (f_data f)) /\
    (forall d, f_data <$> fs (world s') !! path = Some d ->
               Z.of_nat (length d) = len).
Proof.
  intros Hf Hlen. unfold truncate.
  cbv beta iota zeta delta [mbind mret M_bind M_ret get modify emit].
  rewrite Hf. eexists. split; [reflexivity|].
  cbn [world with_world with_fs fs]. rewrite lookup_insert_eq.
  cbn [fmap option_fmap option_map f_data]. split; [reflexivity|].
  intros d [= <-]. rewrite length_resize. lia.
Qed.

(** The trim after extraction: a surrogate of size zero is not truncated,
    one of size [s] is truncated to [s - 1] bytes; and when that call fails
    the function goes to [bail] with the 0 that [stat] stored in [rc]. *)
Lemma trim_after_extraction edit magic e env w s tr :
  let o := edit_or_view_one_message edit magic e env w in
  trim_call (o_trace o) = Some (s, tr) ->
  (s = 0 -> tr = None) /\
  (s <> 0 -> exists r, tr = Some (s - 1, r)) /\
  (forall len, tr = Some (len, -1) ->
     o_rc o = 0 /\ no_reintegration (o_trace o) /\
     fs (o_world o) !! mutt_mktemp env = None).
Proof.
  intros o. remember o as o' eqn:Ho. subst o. exec Ho.
  all: subst o'; cbn [o_rc o_trace o_world trim_call st_size]; intros Htr;
       try discriminate Htr.
  all: injection Htr as Hs Ht; subst.
  all: unfold no_reintegration;
       cbn [forallb reintegration_call negb andb fs].
  all: rewrite ?lookup_delete_eq.
  all: repeat split; try (intros; congruence); try (intros; z_facts; lia);
       try (intros; eexists; reflexivity).
Qed.

(** The failures of the reintegration step: a failed open of the
    destination or a failed commit gives -1 and keeps the message and the
    surrogate; a failed open of the new record gives 0 and removes the
    surrogate; so does a failed header copy that is followed by a commit
    that succeeds. *)
Lemma reintegration_failures edit magic e env w :
  let o := edit_or_view_one_message edit magic e env w in
  let tmp := mutt_mktemp env in
  (In (EvAppendOpen false) (o_trace o) ->
     o_rc o = -1 /\ o_cur o = e /\ is_Some (fs (o_world o) !! tmp)) /\
  (In (EvMsgCommit (-1)) (o_trace o) ->
     o_rc o = -1 /\ o_cur o = e /\ is_Some (fs (o_world o) !! tmp)) /\
  (forall e' oflags, In (EvMsgOpenNew e' oflags false) (o_trace o) ->
     o_rc o = 0 /\ fs (o_world o) !! tmp = None) /\
  (forall flags r, In (EvCopyHdr flags r) (o_trace o) ->
     In (EvMsgCommit 0) (o_trace o) ->
     o_rc o = 0 /\ fs (o_world o) !! tmp = None).
Proof.
  intros o. remember o as o' eqn:Ho. subst o. exec Ho.
  all: subst o'; cbv zeta; cbn [o_rc o_cur o_trace o_world fs].
  all: rewrite ?lookup_delete_eq, ?lookup_partial_alter_eq, ?lookup_insert_eq.
  all: repeat match goal with
       | E : editor _ _ = _ |- _ => rewrite E
       end.
  all: split; [|split; [|split]].
  all: try (intros Hin; absent Hin).
  all: try (intros e' oflags Hin; absent Hin).
  all: try (intros flags r Hin; absent Hin).
  all: try (intros flags r _ Hin; absent Hin).
  all: intros; in_trace; try discriminate;
       try (exfalso; z_facts; lia).
  all: repeat split; try reflexivity; try (destruct e; reflexivity); eauto.
  all: match goal with
       | E : stat_of <$> ?x = Some _ |- is_Some ?x =>
           destruct x; [eauto | discriminate E]
       end.
Qed.

(** View mode: no call of the reintegration step is ever made and the
    store is left alone; the result is 0 only when the [truncate] after
    extraction failed, and any other result leaves the message alone. *)
Lemma view_mode_frame magic e env w :
  let o := edit_or_view_one_message false magic e env w in
  no_reintegration (o_trace o) /\
  store (o_world o) = store w /\
  (o_rc o = 0 ->
     exists s len, trim_call (o_trace o) = Some (s, Some (len, -1))) /\
  (o_rc o <> 0 -> o_cur o = e).
Proof.
  intros o. remember o as o' eqn:Ho. subst o. exec Ho.
  all: subst o'; cbn [o_rc o_cur o_trace o_world store trim_call].
  all: unfold no_reintegration;
       cbn [forallb reintegration_call negb andb].
  all: repeat split; try (intros Hrc; exfalso; z_facts; lia);
       try (intros _; destruct e; reflexivity);
       try (intros _; eexists; eexists; reflexivity).
Qed.

End OneMessage.

(** ** Properties of edit_or_view_message *)

Section BatchDriver.
Context `{Externals}.

Lemma tagged_agree (m m0 : Mailbox) i :
  emails m !! i = emails m0 !! i ->
  message_is_tagged m i = message_is_tagged m0 i.
Proof. unfold message_is_tagged. intros ->. reflexivity. Qed.

Lemma write_back_other calls : forall es j,
  ~ In j (map fst calls) -> write_back es calls !! j = es !! j.
Proof.
  induction calls as [|c calls IH]; intros es j Hj; [reflexivity|].
  cbn [write_back foldl]. fold (write_back (<[c.1:=o_cur c.2]> es) calls).
  cbn [map In] in Hj.
  rewrite IH by tauto. apply list_lookup_insert_ne. intros Heq. tauto.
Qed.

Lemma write_back_hit calls : forall es i o,
  NoDup (map fst calls) -> In (i, o) calls -> (i < length es)%nat ->
  write_back es calls !! i = Some (o_cur o).
Proof.
  induction calls as [|c calls IH]; intros es i o Hnd Hin Hlt; [destruct Hin|].
  cbn [write_back foldl]. fold (write_back (<[c.1:=o_cur c.2]> es) calls).
  cbn [map] in Hnd. apply NoDup_cons in Hnd as [Hc Hnd].
  destruct Hin as [->|Hin].
  - cbn [fst snd] in *. rewrite write_back_other.
    + apply list_lookup_insert_eq. assumption.
    + rewrite <- list_elem_of_In. assumption.
  - apply IH; [assumption|assumption|]. rewrite length_insert. assumption.
Qed.

Lemma tagged_indices_tagged m :
  Forall (fun i => message_is_tagged m i = true) (tagged_indices m).
Proof.
  unfold tagged_indices. apply Forall_forall. intros i Hi.
  apply list_elem_of_filter in Hi. tauto.
Qed.

Lemma tagged_indices_NoDup m : NoDup (tagged_indices m).
Proof. unfold tagged_indices. apply NoDup_filter, NoDup_seq. Qed.

Lemma existsb_failed calls :
  existsb failed calls = true <->
  exists c, In c calls /\ o_rc (snd c) = -1.
Proof.
  rewrite existsb_exists. unfold failed.
  split; intros (c & Hin & Hc); exists c; split; auto;
    apply Z.eqb_eq; assumption.
Qed.

Variables (edit : bool) (envs : nat -> Env).

(** The loop makes the calls of [run_calls] on the tagged indices it has
    ahead; [m0] is the mailbox at entry, which [m] still agrees with from
    index [i] on. *)
Lemma loop_calls n : forall i m0 m w,
  magic m = magic m0 ->
  (forall j, (i <= j)%nat -> emails m !! j = emails m0 !! j) ->
  b_calls (tagged_loop edit envs n i m w) =
  run_calls edit envs m0
    (filter (fun j => message_is_tagged m0 j = true) (seq i n)) w.
Proof.
  induction n as [|n IH]; intros i m0 m w Hmag Hag; [reflexivity|].
  cbn [tagged_loop seq].
  rewrite (tagged_agree m m0 i) by (apply Hag; lia).
  destruct (message_is_tagged m0 i) eqn:Ht; cbn [negb].
  - rewrite filter_cons_True by done. cbn [run_calls].
    rewrite (Hag i) by lia.
    unfold message_is_tagged in Ht.
    destruct (emails m0 !! i) as [e|] eqn:He; [|discriminate].
    rewrite Hmag.
    destruct (o_rc _ =? -1) eqn:Hrc; cbn [b_calls]; [reflexivity|].
    f_equal. apply IH; [reflexivity|].
    intros j Hj. cbn [emails]. rewrite list_lookup_insert_ne by lia.
    apply Hag. lia.
  - rewrite filter_cons_False by (rewrite Ht; done).
    apply IH; [assumption|]. intros j Hj. apply Hag. lia.
Qed.

Lemma loop_rc n : forall i m w,
  b_rc (tagged_loop edit envs n i m w) =
  if existsb failed (b_calls (tagged_loop edit envs n i m w)) then -1 else 0.
Proof.
  induction n as [|n IH]; intros i m w; [reflexivity|].
  cbn [tagged_loop].
  destruct (negb (message_is_tagged m i)); [apply IH|].
  destruct (emails m !! i) as [e|]; [|reflexivity].
  destruct (o_rc _ =? -1) eqn:Hrc; cbn [b_rc b_calls existsb failed snd orb].
  - unfold failed. cbn [snd]. rewrite Hrc. reflexivity.
  - unfold failed at 1. cbn [snd]. rewrite Hrc. cbn [orb]. apply IH.
Qed.

Lemma loop_world n : forall i m w,
  b_world (tagged_loop edit envs n i m w) =
  last_world w (b_calls (tagged_loop edit envs n i m w)).
Proof.
  induction n as [|n IH]; intros i m w; [reflexivity|].
  cbn [tagged_loop].
  destruct (negb (message_is_tagged m i)); [apply IH|].
  destruct (emails m !! i) as [e|]; [|reflexivity].
  destruct (o_rc _ =? -1) eqn:Hrc; cbn [b_world b_calls]; [reflexivity|].
  cbn [last_world]. apply IH.
Qed.

Lemma loop_trace n : forall i m w,
  b_trace (tagged_loop edit envs n i m w) =
  concat (map (fun c => o_trace (snd c))
            (b_calls (tagged_loop edit envs n i m w))).
Proof.
  induction n as [|n IH]; intros i m w; [reflexivity|].
  cbn [tagged_loop].
  destruct (negb (message_is_tagged m i)); [apply IH|].
  destruct (emails m !! i) as [e|]; [|reflexivity].
  destruct (o_rc _ =? -1) eqn:Hrc; cbn [b_trace b_calls map concat snd].
  - rewrite app_nil_r. reflexivity.
  - rewrite IH. reflexivity.
Qed.

Lemma loop_mailbox n : forall i m w,
  b_mailbox (tagged_loop edit envs n i m w) =
  mkMailbox (magic m)
    (write_back (emails m) (b_calls (tagged_loop edit envs n i m w))).
Proof.
  induction n as [|n IH]; intros i m w; [destruct m; reflexivity|].
  cbn [tagged_loop].
  destruct (negb (message_is_tagged m i)); [apply IH|].
  destruct (emails m !! i) as [e|]; [|destruct m; reflexivity].
  destruct (o_rc _ =? -1) eqn:Hrc; cbn [b_mailbox b_calls]; [reflexivity|].
  rewrite IH. reflexivity.
Qed.

(** [run_calls] visits a prefix of the indices it is given. *)
Lemma run_calls_prefix (m : Mailbox) idx : forall w,
  exists k, map fst (run_calls edit envs m idx w) = take k idx.
Proof.
  induction idx as [|i rest IH]; intros w; [exists 0%nat; reflexivity|].
  cbn [run_calls].
  destruct (emails m !! i) as [e|]; [|exists 0%nat; reflexivity].
  cbn [map fst]. destruct (o_rc _ =? -1).
  - exists 1%nat. reflexivity.
  - destruct (IH (o_world (edit_or_view_one_message edit (magic m) e
                             (envs i) w))) as [k Hk].
    exists (S k). cbn [take]. rewrite Hk. reflexivity.
Qed.

Lemma run_calls_chained (m : Mailbox) idx : forall w,
  Forall (fun i => message_is_tagged m i = true) idx ->
  chained edit m envs w (run_calls edit envs m idx w).
Proof.
  induction idx as [|i rest IH]; intros w Hall; [exact I|].
  inversion Hall as [|? ? Hi Hrest]; subst.
  cbn [run_calls]. unfold message_is_tagged in Hi.
  destruct (emails m !! i) as [e|] eqn:He; [|discriminate].
  cbn [chained]. split; [exists e; auto|].
  destruct (o_rc _ =? -1); [exact I|]. apply IH. assumption.
Qed.

(** A call that returns -1 is the last one. *)
Lemma run_calls_stop (m : Mailbox) idx : forall w j c,
  run_calls edit envs m idx w !! j = Some c -> o_rc (snd c) = -1 ->
  S j = length (run_calls edit envs m idx w).
Proof.
  induction idx as [|i rest IH]; intros w j c; [discriminate|].
  cbn [run_calls]. destruct (emails m !! i) as [e|]; [|discriminate].
  destruct (o_rc _ =? -1) eqn:Hrc.
  - destruct j as [|j]; [reflexivity|discriminate].
  - destruct j as [|j]; cbn [lookup list_lookup length].
    + intros [= <-] Hc. cbn [snd] in Hc. apply Z.eqb_neq in Hrc. contradiction.
    + intros Hj Hc. f_equal. eapply IH; eassumption.
Qed.

(** Without a call that returns -1, every index is visited. *)
Lemma run_calls_complete (m : Mailbox) idx : forall w,
  Forall (fun i => message_is_tagged m i = true) idx ->
  existsb failed (run_calls edit envs m idx w) = false ->
  map fst (run_calls edit envs m idx w) = idx.
Proof.
  induction idx as [|i rest IH]; intros w Hall; [reflexivity|].
  inversion Hall as [|? ? Hi Hrest]; subst.
  cbn [run_calls]. unfold message_is_tagged in Hi.
  destruct (emails m !! i) as [e|] eqn:He; [|discriminate].
  cbn [existsb map fst]. unfold failed at 1. cbn [snd].
  destruct (o_rc _ =? -1); [discriminate|].
  cbn [orb]. intros Hex. f_equal. apply IH; assumption.
Qed.

(** The records in the store after a call are still there, in place,
    after the calls that follow. *)
Lemma chained_store m : forall calls w,
  chained edit m envs w calls ->
  (exists more, store (last_world w calls) = store w ++ more) /\
  forall i o, In (i, o) calls ->
    exists more, store (last_world w calls) = store (o_world o) ++ more.
Proof.
  induction calls as [|[i o] calls IH]; intros w Hch.
  - split; [exists []; cbn; rewrite app_nil_r; reflexivity | intros ? ? []].
  - destruct Hch as [(e & He & Ht & Ho) Hrest].
    destruct (IH _ Hrest) as [[more Hmore] Hin]. cbn [last_world].
    split.
    + destruct (store_grows edit (magic m) e (envs i) w) as [m1 Hm1].
      rewrite <- Ho in Hm1. exists (m1 ++ more).
      rewrite Hmore, Hm1, app_assoc. reflexivity.
    + intros i' o' [[= <- <-]|Hi]; [exists more; assumption|].
      apply Hin with i'. assumption.
Qed.

Lemma chained_in_range m : forall calls w i o,
  chained edit m envs w calls -> In (i, o) calls ->
  (i < length (emails m))%nat.
Proof.
  induction calls as [|[i0 o0] calls IH]; intros w i o Hch Hin; [destruct Hin|].
  destruct Hch as [(e & He & _) Hrest].
  destruct Hin as [[= <- <-]|Hin].
  - apply lookup_lt_Some in He. assumption.
  - eapply IH; eassumption.
Qed.

(** The calls of the whole loop. *)
Lemma batch_calls m w :
  b_calls (edit_or_view_message edit m None envs w) =
  run_calls edit envs m (tagged_indices m) w.
Proof.
  unfold edit_or_view_message, tagged_indices.
  apply loop_calls; [reflexivity | intros; reflexivity].
Qed.

(** C8: with a single target the per-message operation runs once, on it,
    and its result is returned.  Without one, the calls are made on the
    tagged messages only, in stored order and without a gap; each call
    starts in the world the call before left; a call that returns -1 is the
    last call made and makes the result -1; otherwise every tagged message
    is visited; a message that is not visited is left as it was; and what
    the calls made did is kept: each visited message is as its call left
    it, and the records a call left in the store are still there at the
    end. *)
Theorem batch_driver m w :
  (forall e,
     let o := edit_or_view_one_message edit (magic m) e (envs 0%nat) w in
     let r := edit_or_view_message edit m (Some e) envs w in
     b_calls r = [(0%nat, o)] /\ b_rc r = o_rc o /\
     b_target r = Some (o_cur o) /\ b_world r = o_world o /\
     b_trace r = o_trace o /\ b_mailbox r = m) /\
  (let r := edit_or_view_message edit m None envs w in
   let visited := map fst (b_calls r) in
   (exists k, visited = take k (tagged_indices m)) /\
   chained edit m envs w (b_calls r) /\
   (forall j c, b_calls r !! j = Some c -> o_rc (snd c) = -1 ->
                S j = length (b_calls r)) /\
   (b_rc r = -1 <-> exists c, In c (b_calls r) /\ o_rc (snd c) = -1) /\
   (b_rc r <> -1 -> visited = tagged_indices m) /\
   (forall j, ~ In j visited ->
              emails (b_mailbox r) !! j = emails m !! j) /\
   (forall i o, In (i, o) (b_calls r) ->
      emails (b_mailbox r) !! i = Some (o_cur o) /\
      exists more, store (b_world r) = store (o_world o) ++ more) /\
   b_world r = last_world w (b_calls r) /\
   b_trace r = concat (map (fun c => o_trace (snd c)) (b_calls r))).
Proof.
  split; [intros e; cbn; auto 10|].
  intros r visited.
  assert (Hcalls : b_calls r = run_calls edit envs m (tagged_indices m) w)
    by apply batch_calls.
  assert (Hch : chained edit m envs w (b_calls r)).
  { rewrite Hcalls. apply run_calls_chained. apply tagged_indices_tagged. }
  assert (Hpre : exists k, visited = take k (tagged_indices m)).
  { unfold visited. rewrite Hcalls. apply run_calls_prefix. }
  assert (Hrc : b_rc r = if existsb failed (b_calls r) then -1 else 0)
    by apply loop_rc.
  assert (Hw : b_world r = last_world w (b_calls r)) by apply loop_world.
  assert (Hmb : b_mailbox r =
                mkMailbox (magic m) (write_back (emails m) (b_calls r)))
    by apply loop_mailbox.
  repeat split.
  - exact Hpre.
  - exact Hch.
  - intros j c. rewrite Hcalls. apply run_calls_stop.
  - intros Hr. apply existsb_failed. rewrite Hrc in Hr.
    destruct (existsb failed (b_calls r)); [reflexivity|discriminate].
  - intros Hex. apply existsb_failed in Hex. rewrite Hrc, Hex. reflexivity.
  - intros Hr. unfold visited. rewrite Hcalls.
    apply run_calls_complete; [apply tagged_indices_tagged|].
    rewrite <- Hcalls. rewrite Hrc in Hr.
    destruct (existsb failed (b_calls r)); [contradiction|reflexivity].
  - intros j Hj. rewrite Hmb. cbn [emails]. apply write_back_other. exact Hj.
  - rewrite Hmb. cbn [emails]. apply write_back_hit.
    + destruct Hpre as [k Hk]. fold visited. rewrite Hk.
      eapply sublist_NoDup; [apply tagged_indices_NoDup | apply sublist_take].
    + assumption.
    + eapply chained_in_range; eassumption.
  - rewrite Hw. eapply chained_store; eassumption.
  - exact Hw.
  - apply loop_trace.
Qed.

(** C10: without a single target, when no call of the per-message
    operation returns -1 the result is 0, whatever the calls returned and
    also when no call was made. *)
Theorem batch_without_failure_returns_0 m w :
  let r := edit_or_view_message edit m None envs w in
  (forall i o, In (i, o) (b_calls r) -> o_rc o <> -1) ->
  b_rc r = 0.
Proof.
  intros r Hall.
  assert (Hrc : b_rc r = if existsb failed (b_calls r) then -1 else 0)
    by apply loop_rc.
  rewrite Hrc.
  destruct (existsb failed (b_calls r)) eqn:Hex; [|reflexivity].
  apply existsb_failed in Hex. destruct Hex as ([i o] & Hin & Hc).
  exfalso. exact (Hall i o Hin Hc).
Qed.

End BatchDriver.

(** ** Further properties of edit_or_view_one_message *)

Section MoreOneMessage.
Context `{Externals}.

(** What one call does to the world and which value it returns. *)
Lemma world_frame edit magic e env w :
  let o := edit_or_view_one_message edit magic e env w in
  let tmp := mutt_mktemp env in
  (MboxType (o_world o) = MboxType w /\
   DeleteUntag (o_world o) = DeleteUntag w) /\
  (forall p, p <> tmp -> fs (o_world o) !! p = fs w !! p) /\
  (store (o_world o) = store w \/
   exists rec, store (o_world o) = store w ++ [rec] /\ o_rc o = 0 /\
               edit = true /\ In (EvMsgCommit 0) (o_trace o)) /\
  (forall c, In (EvMsgCommit c) (o_trace o) -> o_rc o = c /\ c = commit_rc env) /\
  (o_rc o = -1 \/ o_rc o = 0 \/ o_rc o = 1 \/
   In (EvMsgCommit (o_rc o)) (o_trace o)) /\
  (forall p mg ok, In (EvNewFolder p mg ok) (o_trace o) ->
     p = tmp /\ mg = MUTT_MBOX /\ ok = newfolder_ok env).
Proof.
  intros o. remember o as o' eqn:Ho. subst o. exec Ho.
  all: subst o'; cbv zeta;
       cbn [o_rc o_cur o_trace o_world fs store MboxType DeleteUntag].
  all: split; [split; reflexivity|].
  all: split; [intros qq Hqq; other_path; reflexivity|].
  all: split; [first [left; reflexivity
                     | right; eexists; split; [reflexivity|];
                       split; [reflexivity|]; split; [edit_is_true | here]]|].
  all: split; [intros cc Hin; first [absent Hin | in_trace; z_facts; auto]|].
  all: split; [first [left; reflexivity | right; left; reflexivity
                     | right; right; left; reflexivity
                     | right; right; right; here]|].
  all: intros qq mg okk Hin; in_trace; auto.
Qed.

(** Which calls one call makes, and when. *)
Lemma call_frame edit magic e env w :
  let o := edit_or_view_one_message edit magic e env w in
  let tmp := mutt_mktemp env in
  (0 <= o_rc o <-> In (EvUnlink tmp) (o_trace o)) /\
  (0 <= o_rc o -> fs (o_world o) !! tmp = None) /\
  (In (EvMessage "Error. Preserving temporary file: %s") (o_trace o) <->
     o_rc o = -1 /\ newfolder_ok env = true) /\
  (In (EvEditFile tmp) (o_trace o) <->
     newfolder_ok env = true /\ append_rc env <> -1 /\
     stat1_fails env = false /\
     (length (f_data (extracted env)) = 0%nat \/ truncate_fails env = false)) /\
  (forall p mode r, In (EvChmodRm p mode r) (o_trace o) ->
     edit = false /\ p = tmp /\ mode = 146 /\
     r = (if chmod_fails env then -1 else 0) /\
     In (EvEditFile tmp) (o_trace o)) /\
  (edit = false -> In (EvEditFile tmp) (o_trace o) ->
     exists r, In (EvChmodRm tmp 146 r) (o_trace o)) /\
  (forall chflags r, In (EvAppendMessage chflags r) (o_trace o) ->
     chflags = Z.lor CH_NOLEN (if mbox_or_mmdf magic then 0 else CH_NOSTATUS) /\
     r = append_rc env).
Proof.
  intros o. remember o as o' eqn:Ho. subst o. exec Ho.
  all: subst o'; cbv zeta; cbn [o_rc o_cur o_trace o_world fs].
  all: rewrite ?lookup_delete_eq.
  all: bool_facts.
  all: split; [split; [intros Hrc; first [solve [here] | exfalso; lia]
                      | intros Hin; first [absent Hin | lia]]|].
  all: split; [intros Hrc; first [reflexivity | exfalso; lia]|].
  all: split; [split; [intros Hin;
                        first [absent Hin | solve [in_trace] | split; reflexivity]
                      | intros [Hrc Hnf];
                        first [solve [here] | exfalso; congruence | exfalso; lia]]|].
  all: split; [split;
    [intros Hin; first [absent Hin
                       | repeat split; try reflexivity; try assumption;
                         first [left; lia | right; reflexivity]]
    | intros (Hnf & Hap & Hst & Htr);
      first [solve [here]
            | exfalso; first [congruence | lia
                             | destruct Htr; first [congruence | lia]]]]|].
  all: split; [intros qq mode rr Hin;
               first [absent Hin
                     | in_trace; repeat split; try reflexivity; solve [here]]|].
  all: split; [intros Hed Hin;
               first [absent Hin | congruence | eexists; solve [here]]|].
  all: intros chflags rr Hin; first [absent Hin | in_trace; split; congruence].
Qed.

(** What follows the [stat] made after the editor returned. *)
Lemma detection_frame edit magic e env w base r :
  let o := edit_or_view_one_message edit magic e env w in
  let tmp := mutt_mktemp env in
  post_edit (o_trace o) = Some (base, r) ->
  base = baseline env /\
  (r = None ->
     o_rc o = -1 /\ o_cur o = e /\ store (o_world o) = store w /\
     no_reintegration (o_trace o) /\
     In (EvError "Can't stat %s: %s") (o_trace o)) /\
  (forall sb2, r = Some sb2 -> st_size sb2 <> 0 -> edit = false ->
     o_rc o = 1 /\ o_cur o = e /\ fs (o_world o) !! tmp = None /\
     (st_mtime sb2 <> base <->
      In (EvMessage "Message of read-only mailbox modified! Ignoring changes.")
         (o_trace o))) /\
  (forall sb2, r = Some sb2 -> st_size sb2 <> 0 -> edit = true ->
     st_mtime sb2 <> base ->
     exists x, In (EvFopen tmp x) (o_trace o)).
Proof.
  intros o. remember o as o' eqn:Ho. subst o. exec Ho.
  all: subst o'; cbv zeta; cbn [o_rc o_cur o_trace o_world fs store post_edit];
       intros Hpe; try discriminate Hpe.
  all: injection Hpe as Hb Hr; subst base r.
  all: rewrite ?lookup_delete_eq.
  all: bool_facts.
  all: try (exfalso; congruence).
  all: split; [reflexivity|].
  all: split; [intros Hr; try discriminate Hr;
               unfold no_reintegration;
               cbn [forallb reintegration_call negb andb];
               repeat split; try reflexivity; try (destruct e; reflexivity);
               solve [here]|].
  all: split; [intros sb2 Hr Hsz Hed; try discriminate Hr;
               try (injection Hr as <-); try congruence;
               cbn [st_size st_mtime] in *; try (exfalso; lia);
               (split; [reflexivity|]); (split; [destruct e; reflexivity|]);
               (split; [reflexivity|]);
               (split; [intros Hne; first [solve [here] | exfalso; congruence
                                          | exfalso; lia]
                       | intros Hin; first [absent Hin | solve [in_trace]
                                           | assumption | congruence | lia]])|].
  all: intros sb2 Hr Hsz Hed Hmt; try discriminate Hr;
       try (injection Hr as <-); try congruence;
       cbn [st_size st_mtime] in *; try (exfalso; lia).
  all: eexists; solve [here].
Qed.

(** X2: when the temporary folder cannot be created the function returns
    -1 at once: nothing else is called, the world and the message are as
    before, and the [bail] block (with its "Preserving temporary file"
    message) is not run. *)
Theorem folder_creation_failure edit magic e env w :
  newfolder_ok env = false ->
  edit_or_view_one_message edit magic e env w =
  mkOutcome (-1) e w
    [EvNewFolder (mutt_mktemp env) MUTT_MBOX false;
     EvError "could not create temporary folder: %s"].
Proof.
  intros Hnf.
  remember (edit_or_view_one_message edit magic e env w) as o eqn:Ho.
  unfold edit_or_view_one_message, one_message_body, one_message_bail in Ho.
  reduce_in Ho. rewrite Hnf in Ho. reduce_in Ho.
  subst o. destruct w; reflexivity.
Qed.

(** X14: when the extraction returns -1 or the first [stat] fails, the
    result is -1, the editor is never run, the message and the store are
    untouched, and what was extracted stays on disk. *)
Theorem extraction_failure_keeps_surrogate edit magic e env w :
  let o := edit_or_view_one_message edit magic e env w in
  let tmp := mutt_mktemp env in
  newfolder_ok env = true ->
  append_rc env = -1 \/ stat1_fails env = true ->
  o_rc o = -1 /\ o_cur o = e /\ store (o_world o) = store w /\
  fs (o_world o) !! tmp = Some (extracted env) /\
  ~ In (EvEditFile tmp) (o_trace o) /\
  In (EvMessage "Error. Preserving temporary file: %s") (o_trace o).
Proof.
  intros o. remember o as o' eqn:Ho. subst o. exec Ho.
  all: subst o'; cbv zeta; cbn [o_rc o_cur o_trace o_world fs store];
       intros Hnf Hfail.
  all: bool_facts.
  all: try (exfalso; destruct Hfail; first [congruence | lia]).
  all: rewrite ?lookup_insert_eq.
  all: repeat split; try reflexivity; try (destruct e; reflexivity);
       try solve [here]; intros Hin; absent Hin.
Qed.

(** X7: when the header copy and the commit succeed, the record added is
    the bytes written at the opening of the record, the header as copied, a
    newline, and the rest of the surrogate as copied; the result is 0. *)
Theorem committed_record_content edit magic e env w data e' oflags flags :
  let o := edit_or_view_one_message edit magic e env w in
  let tmp := mutt_mktemp env in
  In (EvFopen tmp (Some data)) (o_trace o) ->
  In (EvMsgOpenNew e' oflags true) (o_trace o) ->
  In (EvCopyHdr flags 0) (o_trace o) ->
  In (EvMsgCommit 0) (o_trace o) ->
  exists first hdr rest,
    open_new env e' oflags = Some first /\
    copy_hdr env data flags = (0, (hdr, rest)) /\
    store (o_world o) =
      store w ++ [first ++ hdr ++ x0a :: copy_stream env rest] /\
    o_rc o = 0.
Proof.
  intros o. remember o as o' eqn:Ho. subst o. exec Ho.
  all: subst o'; cbv zeta; cbn [o_rc o_trace o_world store];
       intros Hopen Hnew Hhdr Hcommit.
  all: try absent Hcommit.
  all: in_trace; try (exfalso; z_facts; lia).
  all: repeat match goal with
       | E : fst _ = _ |- _ => cbn [fst] in E; subst
       end.
  all: try discriminate.
  all: eexists; eexists; eexists.
  all: split; [eassumption|]; split; [eassumption|]; split; reflexivity.
Qed.

(** X15: in view mode, unless the truncation of the surrogate fails, the
    result is never 0, no flag of the message is set, the store is left
    alone and no reintegration call is made. *)
Theorem view_mode_leaves_message edit magic e env w :
  let o := edit_or_view_one_message edit magic e env w in
  edit = false ->
  truncate_fails env = false ->
  o_rc o <> 0 /\ o_cur o = e /\ store (o_world o) = store w /\
  no_reintegration (o_trace o) /\
  forall flag bf, ~ In (EvSetFlag flag bf) (o_trace o).
Proof.
  intros o. remember o as o' eqn:Ho. subst o. exec Ho.
  all: subst o'; cbv zeta; cbn [o_rc o_cur o_trace o_world store];
       intros Hed Htr.
  all: bool_facts.
  all: try (exfalso; congruence).
  all: unfold no_reintegration; cbn [forallb reintegration_call negb andb].
  all: repeat split; try reflexivity; try (destruct e; reflexivity);
       try (intros Hrc; discriminate Hrc); try lia.
  all: intros flag bf Hin; absent Hin.
Qed.

(** What one call may do to the flags of its message. *)
Lemma message_flags edit magic e env w :
  let e' := o_cur (edit_or_view_one_message edit magic e env w) in
  msgno e' = msgno e /\ old e' = old e /\
  (deleted e = true -> deleted e' = true) /\
  (purge e = true -> purge e' = true) /\
  (read e = true -> read e' = true) /\
  (tagged e' = true -> tagged e = true).
Proof.
  intros e'. destruct (message_frame edit magic e env w) as (Hne & Heq & _).
  destruct (Z.eq_dec (o_rc (edit_or_view_one_message edit magic e env w)) 0)
    as [Hz|Hnz].
  - destruct (Heq Hz) as [Hc _]. unfold e'. rewrite Hc.
    destruct (DeleteUntag w); cbn; repeat split; auto; discriminate.
  - destruct (Hne Hnz) as [Hc _]. unfold e'. rewrite Hc. repeat split; auto.
Qed.

(** X16: one call never clears [deleted], [purge] or [read], never sets
    [tagged], and never changes [old] or [msgno]. *)
Theorem flags_monotone edit magic e env w :
  let e' := o_cur (edit_or_view_one_message edit magic e env w) in
  msgno e' = msgno e /\ old e' = old e /\
  (deleted e = true -> deleted e' = true) /\
  (purge e = true -> purge e' = true) /\
  (read e = true -> read e' = true) /\
  (tagged e' = true -> tagged e = true).
Proof. exact (message_flags edit magic e env w). Qed.


(** X3: the value returned is -1, 0 or 1, or else the value that
    [mx_msg_commit] returned in this call. *)
Theorem result_codes edit magic e env w :
  let o := edit_or_view_one_message edit magic e env w in
  o_rc o = -1 \/ o_rc o = 0 \/ o_rc o = 1 \/
  (o_rc o = commit_rc env /\ In (EvMsgCommit (commit_rc env)) (o_trace o)).
Proof.
  intros o.
  destruct (world_frame edit magic e env w) as (_ & _ & _ & Hc & Hrc & _).
  destruct Hrc as [Hr|[Hr|[Hr|Hr]]]; auto.
  right; right; right. destruct (Hc _ Hr) as [_ Heq].
  fold o in Heq. split; [exact Heq | rewrite <- Heq; exact Hr].
Qed.


(** X5: at [bail] the surrogate is unlinked exactly when the result is not
    negative, and is then gone; "Error. Preserving temporary file" is
    reported exactly when the result is -1 and the temporary folder had been
    created. *)
Theorem surrogate_removed_iff_not_negative edit magic e env w :
  let o := edit_or_view_one_message edit magic e env w in
  let tmp := mutt_mktemp env in
  (0 <= o_rc o <-> In (EvUnlink tmp) (o_trace o)) /\
  (0 <= o_rc o -> fs (o_world o) !! tmp = None) /\
  (In (EvMessage "Error. Preserving temporary file: %s") (o_trace o) <->
     o_rc o = -1 /\ newfolder_ok env = true).
Proof.
  intros o tmp.
  destruct (call_frame edit magic e env w) as (H1 & H2 & H3 & _).
  auto.
Qed.

(** X6: a call adds at most one record to the destination store, at its
    end, and only in edit mode with result 0. *)
Theorem at_most_one_record edit magic e env w :
  let o := edit_or_view_one_message edit magic e env w in
  store (o_world o) = store w \/
  exists rec, store (o_world o) = store w ++ [rec] /\
              o_rc o = 0 /\ edit = true /\ In (EvMsgCommit 0) (o_trace o).
Proof.
  intros o.
  destruct (world_frame edit magic e env w) as (_ & _ & Hst & _). exact Hst.
Qed.

(** X8: the message is extracted with [CH_NOLEN], and with [CH_NOSTATUS]
    unless the mailbox is mbox or MMDF; the call is made with no other
    flags. *)
Theorem extraction_flags edit magic e env w chflags r :
  In (EvAppendMessage chflags r)
     (o_trace (edit_or_view_one_message edit magic e env w)) ->
  chflags = Z.lor CH_NOLEN (if mbox_or_mmdf magic then 0 else CH_NOSTATUS) /\
  r = append_rc env.
Proof.
  intros Hin.
  destruct (call_frame edit magic e env w) as (_ & _ & _ & _ & _ & _ & Hx).
  apply Hx. exact Hin.
Qed.

(** X9: the editor is run exactly when the temporary folder was created,
    the extraction did not return -1, the first [stat] succeeded, and the
    surrogate was empty or its truncation succeeded. *)
Theorem editor_runs_iff edit magic e env w :
  In (EvEditFile (mutt_mktemp env))
     (o_trace (edit_or_view_one_message edit magic e env w)) <->
  newfolder_ok env = true /\ append_rc env <> -1 /\
  stat1_fails env = false /\
  (length (f_data (extracted env)) = 0%nat \/ truncate_fails env = false).
Proof.
  destruct (call_frame edit magic e env w) as (_ & _ & _ & Hx & _).
  exact Hx.
Qed.

(** X10: write permission is removed from the surrogate in view mode only,
    with the mask [S_IWUSR | S_IWGRP | S_IWOTH]; in view mode this is tried
    whenever the editor is run, and the editor is run whether or not it
    worked. *)
Theorem write_bits_removed_in_view_mode_only edit magic e env w :
  let o := edit_or_view_one_message edit magic e env w in
  let tmp := mutt_mktemp env in
  (forall p mode r, In (EvChmodRm p mode r) (o_trace o) ->
     edit = false /\ p = tmp /\ mode = 146 /\ In (EvEditFile tmp) (o_trace o)) /\
  (edit = false -> In (EvEditFile tmp) (o_trace o) ->
     exists r, In (EvChmodRm tmp 146 r) (o_trace o)).
Proof.
  intros o tmp.
  destruct (call_frame edit magic e env w) as (_ & _ & _ & _ & Hc & Hv & _).
  split; [|exact Hv].
  intros p mode r Hin. destruct (Hc p mode r Hin) as (? & ? & ? & _ & ?). auto.
Qed.

(** X11: in view mode, when [stat] after the editor succeeds with a size
    that is not zero, the result is 1, the message is untouched and the
    surrogate is removed; "Message of read-only mailbox modified!" is
    reported exactly when the modification time differs from the reference
    timestamp. *)
Theorem view_mode_detection magic e env w base sb2 :
  let o := edit_or_view_one_message false magic e env w in
  post_edit (o_trace o) = Some (base, Some sb2) ->
  st_size sb2 <> 0 ->
  o_rc o = 1 /\ o_cur o = e /\
  fs (o_world o) !! mutt_mktemp env = None /\
  (st_mtime sb2 <> base <->
   In (EvMessage "Message of read-only mailbox modified! Ignoring changes.")
      (o_trace o)).
Proof.
  intros o Hpe Hsz.
  destruct (detection_frame false magic e env w base (Some sb2) Hpe)
    as (_ & _ & Hv & _).
  apply Hv; auto.
Qed.

(** X12: when [stat] after the editor fails, the result is -1, the message
    and the store are untouched, no reintegration call is made, and the
    surrogate is not unlinked. *)
Theorem post_edit_stat_failure edit magic e env w base :
  let o := edit_or_view_one_message edit magic e env w in
  post_edit (o_trace o) = Some (base, None) ->
  o_rc o = -1 /\ o_cur o = e /\ store (o_world o) = store w /\
  no_reintegration (o_trace o) /\
  In (EvError "Can't stat %s: %s") (o_trace o) /\
  ~ In (EvUnlink (mutt_mktemp env)) (o_trace o).
Proof.
  intros o Hpe.
  destruct (detection_frame edit magic e env w base None Hpe)
    as (_ & Hn & _).
  destruct (Hn eq_refl) as (Hrc & Hc & Hs & Hr & Hm).
  repeat split; try assumption.
  intros Hin.
  destruct (call_frame edit magic e env w) as (Hu & _).
  apply Hu in Hin. subst o. lia.
Qed.

(** X13: in edit mode, a surrogate that is not empty and whose modification
    time differs from the reference timestamp is always re-opened for
    reintegration. *)
Theorem modified_edit_is_reintegrated magic e env w base sb2 :
  let o := edit_or_view_one_message true magic e env w in
  post_edit (o_trace o) = Some (base, Some sb2) ->
  st_size sb2 <> 0 ->
  st_mtime sb2 <> base ->
  exists x, In (EvFopen (mutt_mktemp env) x) (o_trace o).
Proof.
  intros o Hpe Hsz Hmt.
  destruct (detection_frame true magic e env w base (Some sb2) Hpe)
    as (_ & _ & _ & Hx).
  apply (Hx sb2); auto.
Qed.

(** X17: after extraction a surrogate of size zero is not truncated, and a
    surrogate of size [s] is truncated to [s - 1] bytes. *)
Theorem trim_length edit magic e env w s tr :
  trim_call (o_trace (edit_or_view_one_message edit magic e env w)) =
    Some (s, tr) ->
  (s = 0 -> tr = None) /\
  (s <> 0 -> exists r, tr = Some (s - 1, r)).
Proof.
  intros Htr.
  destruct (trim_after_extraction edit magic e env w s tr Htr) as (H0 & H1 & _).
  split; assumption.
Qed.

(** X18: when the destination cannot be opened for append, or
    [mx_msg_commit] returns -1, the result is -1, the message and the store
    are untouched and the surrogate stays on disk. *)
Theorem reintegration_hard_failures edit magic e env w :
  let o := edit_or_view_one_message edit magic e env w in
  In (EvAppendOpen false) (o_trace o) \/ In (EvMsgCommit (-1)) (o_trace o) ->
  o_rc o = -1 /\ o_cur o = e /\
  is_Some (fs (o_world o) !! mutt_mktemp env) /\
  store (o_world o) = store w.
Proof.
  intros o Hin.
  destruct (reintegration_failures edit magic e env w) as (Ha & Hc & _).
  assert (Hx : o_rc o = -1 /\ o_cur o = e /\
               is_Some (fs (o_world o) !! mutt_mktemp env))
    by (destruct Hin; auto).
  destruct Hx as (Hrc & Hcur & Hfs). repeat split; try assumption.
  destruct (world_frame edit magic e env w) as (_ & _ & Hst & _).
  destruct Hst as [Hst|(rec & _ & Hz & _)]; [exact Hst|].
  subst o. lia.
Qed.

(** [fgets] stops after the first newline. *)
Lemma fgets_line_first_line l : forall n rest,
  Forall (fun b => b <> x0a) l -> (length l < n)%nat ->
  fgets_line n (l ++ x0a :: rest) = l ++ [x0a].
Proof.
  induction l as [|b l IH]; intros n rest Hall Hlen.
  - destruct n; [cbn in Hlen; lia|]. reflexivity.
  - destruct n; [cbn in Hlen; lia|].
    inversion Hall as [|? ? Hb Hl]; subst. cbn [app fgets_line].
    destruct (Byte.eqb b x0a) eqn:Eb.
    + apply Byte.byte_dec_bl in Eb. contradiction.
    + f_equal. apply IH; [assumption | cbn in Hlen; lia].
Qed.

(** X19: the separator test sees the first line of the surrogate only:
    for a first line shorter than the buffer, the bytes after its newline
    do not change the outcome. *)
Theorem separator_test_reads_first_line l rest :
  Forall (fun b => b <> x0a) l ->
  Z.of_nat (length l) < STRING - 1 ->
  first_line_is_from (l ++ x0a :: rest) = is_from (l ++ [x0a]).
Proof.
  intros Hall Hlen. unfold first_line_is_from, fgets.
  destruct (l ++ x0a :: rest) eqn:Hd; [destruct l; discriminate|].
  rewrite <- Hd. rewrite fgets_line_first_line; [reflexivity|assumption|lia].
Qed.

End MoreOneMessage.

(** ** Further properties of edit_or_view_message *)

Section MoreBatchLemmas.
Context `{Externals}.
Variables (edit : bool) (envs : nat -> Env).

(** A property of the world that every call keeps holds after a chain of
    calls. *)
Lemma chained_invariant (P : World -> Prop) m :
  (forall e i w, P w ->
     P (o_world (edit_or_view_one_message edit (magic m) e (envs i) w))) ->
  forall calls w, chained edit m envs w calls -> P w ->
                  P (last_world w calls).
Proof.
  intros Hstep. induction calls as [|[i o] calls IH]; intros w Hch Hw.
  - exact Hw.
  - destruct Hch as [(e & _ & _ & ->) Hrest]. cbn [last_world].
    apply IH; [exact Hrest|]. apply Hstep. exact Hw.
Qed.

Lemma chained_call m : forall calls w i o,
  chained edit m envs w calls -> In (i, o) calls ->
  exists e w', emails m !! i = Some e /\
    o = edit_or_view_one_message edit (magic m) e (envs i) w'.
Proof.
  induction calls as [|[i0 o0] calls IH]; intros w i o Hch Hin; [destruct Hin|].
  destruct Hch as [(e & He & _ & Ho) Hrest].
  destruct Hin as [[= <- <-]|Hin]; [eauto|].
  eapply IH; eassumption.
Qed.

Lemma batch_chained m w :
  chained edit m envs w (b_calls (edit_or_view_message edit m None envs w)).
Proof.
  rewrite batch_calls. apply run_calls_chained, tagged_indices_tagged.
Qed.

Lemma batch_world m w :
  b_world (edit_or_view_message edit m None envs w) =
  last_world w (b_calls (edit_or_view_message edit m None envs w)).
Proof. apply loop_world. Qed.

Lemma loop_untagged n : forall i m w,
  (forall j, message_is_tagged m j = false) ->
  tagged_loop edit envs n i m w = mkBatch 0 m None w [] [].
Proof.
  induction n as [|n IH]; intros i m w Hno; [reflexivity|].
  cbn [tagged_loop]. rewrite Hno. cbn [negb]. apply IH. exact Hno.
Qed.

Lemma chained_store_bound m : forall calls w,
  chained edit m envs w calls ->
  (length (store (last_world w calls)) <=
   length (store w) +
   length (List.filter (fun c => (o_rc (snd c) =? 0)%Z) calls))%nat.
Proof.
  induction calls as [|[i o] calls IH]; intros w Hch; [cbn; lia|].
  destruct Hch as [(e & _ & _ & Ho) Hrest]. cbn [last_world List.filter snd].
  specialize (IH _ Hrest).
  destruct (world_frame edit (magic m) e (envs i) w) as (_ & _ & Hst & _).
  rewrite <- Ho in Hst.
  destruct Hst as [Hst|(rec & Hst & Hrc & _)].
  - rewrite Hst in IH. destruct (o_rc o =? 0); cbn [length]; lia.
  - rewrite Hst, length_app in IH. rewrite Hrc. cbn [Z.eqb length] in *. lia.
Qed.

End MoreBatchLemmas.

Section MoreBatch.
Context `{Externals}.

Lemma write_back_length calls : forall es,
  length (write_back es calls) = length es.
Proof.
  induction calls as [|c calls IH]; intros es; [reflexivity|].
  cbn [write_back foldl]. fold (write_back (<[c.1:=o_cur c.2]> es) calls).
  rewrite IH. apply length_insert.
Qed.

Lemma no_reintegration_app t1 t2 :
  no_reintegration t1 -> no_reintegration t2 -> no_reintegration (t1 ++ t2).
Proof.
  unfold no_reintegration. intros H1 H2. rewrite forallb_app, H1, H2.
  reflexivity.
Qed.

Lemma chained_view_trace m envs : forall calls w,
  chained false m envs w calls ->
  no_reintegration (concat (map (fun c => o_trace (snd c)) calls)).
Proof.
  induction calls as [|[i o] calls IH]; intros w Hch; [reflexivity|].
  destruct Hch as [(e & _ & _ & Ho) Hrest]. cbn [map concat snd].
  apply no_reintegration_app; [|eapply IH; eassumption].
  rewrite Ho. apply (view_mode_frame (magic m) e (envs i) w).
Qed.

(** X20: [mutt_view_message], for a single target or for the tagged
    messages, never adds a record to the store and never makes a call of
    the reintegration step. *)
Theorem view_never_touches_store m e envs w :
  let r := mutt_view_message m e envs w in
  store (b_world r) = store w /\ no_reintegration (b_trace r).
Proof.
  unfold mutt_view_message. destruct e as [e|]; cbn [edit_or_view_message].
  - cbn [b_world b_trace].
    destruct (view_mode_frame (magic m) e (envs 0%nat) w) as (Hn & Hs & _).
    split; assumption.
  - fold (edit_or_view_message false m None envs w).
    pose proof (batch_chained false envs m w) as Hch.
    split.
    + rewrite batch_world.
      apply (chained_invariant false envs (fun w' => store w' = store w) m);
        [|exact Hch|reflexivity].
      intros e i w' Hw'.
      destruct (view_mode_frame (magic m) e (envs i) w') as (_ & Hs & _).
      rewrite Hs. exact Hw'.
    + unfold edit_or_view_message. rewrite loop_trace.
      eapply chained_view_trace. exact Hch.
Qed.

(** X21: [edit_or_view_message] adds at most one record to the store for
    each per-message call that returned 0. *)
Theorem batch_store_bound edit m e envs w :
  let r := edit_or_view_message edit m e envs w in
  (length (store (b_world r)) <=
   length (store w) +
   length (List.filter (fun c => (o_rc (snd c) =? 0)%Z) (b_calls r)))%nat.
Proof.
  destruct e as [e|]; cbn zeta.
  - cbn [edit_or_view_message b_world b_calls List.filter snd].
    destruct (world_frame edit (magic m) e (envs 0%nat) w) as (_ & _ & Hst & _).
    destruct Hst as [Hst|(rec & Hst & Hrc & _)].
    + rewrite Hst. lia.
    + rewrite Hst, Hrc, length_app. cbn. lia.
  - rewrite batch_world. apply (chained_store_bound edit envs m).
    apply batch_chained.
Qed.

(** X22: the loop over the tagged messages keeps the format of the mailbox
    and the number of its messages; each message keeps [msgno] and [old],
    keeps [deleted], [purge] and [read] when set, and is not tagged unless
    it was. *)
Theorem batch_keeps_messages edit m envs w :
  let r := edit_or_view_message edit m None envs w in
  magic (b_mailbox r) = magic m /\
  length (emails (b_mailbox r)) = length (emails m) /\
  forall i e, emails m !! i = Some e ->
    exists e', emails (b_mailbox r) !! i = Some e' /\
      msgno e' = msgno e /\ old e' = old e /\
      (deleted e = true -> deleted e' = true) /\
      (purge e = true -> purge e' = true) /\
      (read e = true -> read e' = true) /\
      (tagged e' = true -> tagged e = true).
Proof.
  intros r.
  assert (Hmb : b_mailbox r =
                mkMailbox (magic m) (write_back (emails m) (b_calls r)))
    by apply loop_mailbox.
  rewrite Hmb. cbn [magic emails]. split; [reflexivity|].
  split; [apply write_back_length|].
  intros i e He.
  destruct (in_dec Nat.eq_dec i (map fst (b_calls r))) as [Hin|Hnin].
  - apply in_map_iff in Hin. destruct Hin as ([i' o] & Hi & Hin).
    cbn [fst] in Hi. subst i'.
    pose proof (batch_chained edit envs m w) as Hch. fold r in Hch.
    destruct (chained_call edit envs m _ _ _ _ Hch Hin) as (e0 & w' & He0 & Ho).
    rewrite He in He0. injection He0 as <-.
    exists (o_cur o). split.
    + apply write_back_hit; [|exact Hin|eapply lookup_lt_Some; exact He].
      unfold r. rewrite batch_calls.
      destruct (run_calls_prefix edit envs m (tagged_indices m) w) as [k Hk].
      rewrite Hk.
      eapply sublist_NoDup; [apply tagged_indices_NoDup | apply sublist_take].
    + rewrite Ho. apply message_flags.
  - exists e. rewrite write_back_other by exact Hnin. auto 10.
Qed.


(** X24: without a tagged message (in particular for an empty mailbox) the
    loop returns 0, calls nothing and changes nothing. *)
Theorem batch_without_tagged_is_noop edit m envs w :
  (forall i, message_is_tagged m i = false) ->
  edit_or_view_message edit m None envs w = mkBatch 0 m None w [] [].
Proof.
  intros Hno. unfold edit_or_view_message. apply loop_untagged. exact Hno.
Qed.

End MoreBatch.

(** ** Concrete runs *)

#[local] Existing Instance sample_externals.

(** The scenario of the spec: one message with body "hello", the editor
    appends "world": the call returns 0, the original is marked deleted,
    purged and read, and the new record has both lines. *)
Example scenario_edit_appends_world :
  let o := edit_or_view_one_message true MUTT_MBOX (seen_message 1)
             (good_edit "/tmp/neomutt-1") empty_world in
  o_rc o = 0 /\
  o_cur o = mkEmail 1 true true true true false /\
  store (o_world o) =
    [take 21 hello_mbox ++
     [x68; x65; x6c; x6c; x6f; x0a; x77; x6f; x72; x6c; x64; x0a]] /\
  fs (o_world o) !! "/tmp/neomutt-1" = None.
Proof. vm_compute. auto. Qed.

(** C1: the editor changed the surrogate and [mx_msg_open_new] returns
    NULL.  The function returns 0, marks the original deleted, purged and
    read, and removes the surrogate, although nothing reached the store. *)
Theorem open_new_failure_returns_committed :
  let env := sample_env "/tmp/neomutt-1" false append_world None 0 0 in
  let o := edit_or_view_one_message true MUTT_MBOX (seen_message 1) env
             empty_world in
  In (EvMsgOpenNew (mkEmail 1 false false false false true) 0 false)
     (o_trace o) /\
  o_rc o = 0 /\
  o_cur o = mkEmail 1 true true true true false /\
  fs (o_world o) !! "/tmp/neomutt-1" = None /\
  store (o_world o) = [].
Proof. vm_compute. split; [here | auto]. Qed.

(** C2: [truncate] returns -1 in edit mode.  The size was 28 and the call
    asked for 27 bytes, but the function leaves with the 0 of [stat]: it
    returns 0 and marks the original, without any reintegration. *)
Theorem truncate_failure_returns_committed :
  let env := sample_env "/tmp/neomutt-1" true append_world (Some []) 0 0 in
  let o := edit_or_view_one_message true MUTT_MBOX (seen_message 1) env
             empty_world in
  trim_call (o_trace o) = Some (28, Some (27, -1)) /\
  o_rc o = 0 /\
  o_cur o = mkEmail 1 true true true true false /\
  no_reintegration (o_trace o) /\
  fs (o_world o) !! "/tmp/neomutt-1" = None.
Proof. vm_compute. auto 10. Qed.

(** C3: view mode, and [truncate] returns -1.  The store is untouched, but
    the function returns 0 and changes the flags of the message. *)
Theorem view_mode_marks_message_when_truncate_fails :
  let env := sample_env "/tmp/neomutt-1" true leave_alone (Some []) 0 0 in
  let o := edit_or_view_one_message false MUTT_MBOX (seen_message 1) env
             empty_world in
  o_rc o = 0 /\
  o_cur o = mkEmail 1 true true true true false /\
  o_cur o <> seen_message 1 /\
  store (o_world o) = store empty_world /\
  no_reintegration (o_trace o).
Proof. vm_compute. repeat split; auto. discriminate. Qed.

(** C7, as stated, fails: the editor empties the surrogate and the result
    is 1, not the Failed result -1. *)
Lemma empty_file_result_is_not_failed :
  let env := sample_env "/tmp/neomutt-1" false empty_out (Some []) 0 0 in
  let o := edit_or_view_one_message true MUTT_MBOX (seen_message 1) env
             empty_world in
  post_edit (o_trace o) = Some (100, Some (mkStat 0 105 0x180)) /\
  o_rc o = 1 /\
  o_rc o <> -1 /\
  fs (o_world o) !! "/tmp/neomutt-1" = None.
Proof. vm_compute. repeat split; auto. discriminate. Qed.

Lemma empty_file_is_unchanged_witness :
  let env := sample_env "/tmp/neomutt-1" false empty_out (Some []) 0 0 in
  let o := edit_or_view_one_message true MUTT_MBOX (seen_message 1) env
             empty_world in
  post_edit (o_trace o) = Some (100, Some (mkStat 0 105 0x180)) /\
  st_size (mkStat 0 105 0x180) = 0 /\
  In (EvMessage "Message file is empty") (o_trace o) /\
  no_reintegration (o_trace o) /\
  store (o_world o) = store empty_world /\
  o_rc o = 1 /\
  o_cur o = seen_message 1 /\
  fs (o_world o) !! "/tmp/neomutt-1" = None.
Proof.
  split; [vm_compute; reflexivity|]. split; [reflexivity|].
  apply (empty_file_is_unchanged true MUTT_MBOX (seen_message 1)
           (sample_env "/tmp/neomutt-1" false empty_out (Some []) 0 0)
           empty_world 100 (mkStat 0 105 0x180)).
  - vm_compute. reflexivity.
  - reflexivity.
Defined.

Lemma unmodified_edit_is_noop_witness :
  let env := sample_env "/tmp/neomutt-1" false leave_alone (Some []) 0 0 in
  let o := edit_or_view_one_message true MUTT_MAILDIR (seen_message 1) env
             empty_world in
  post_edit (o_trace o) = Some (100, Some (mkStat 27 100 0x180)) /\
  st_size (mkStat 27 100 0x180) <> 0 /\
  o_rc o = 1 /\
  no_reintegration (o_trace o) /\
  store (o_world o) = store empty_world /\
  o_cur o = seen_message 1 /\
  fs (o_world o) !! "/tmp/neomutt-1" = None /\
  In (EvMessage "Message not modified") (o_trace o).
Proof.
  split; [vm_compute; reflexivity|]. split; [vm_compute; discriminate|].
  apply (unmodified_edit_is_noop MUTT_MAILDIR (seen_message 1)
           (sample_env "/tmp/neomutt-1" false leave_alone (Some []) 0 0)
           empty_world (mkStat 27 100 0x180)).
  - vm_compute. reflexivity.
  - vm_compute. discriminate.
Defined.

Lemma header_mode_by_first_line_witness :
  let o := edit_or_view_one_message true MUTT_MBOX (seen_message 1)
             (good_edit "/tmp/neomutt-1") empty_world in
  In (EvFopen "/tmp/neomutt-1" (Some hello_world)) (o_trace o) /\
  In (EvMsgOpenNew (mkEmail 1 false false false false true) 0 true)
     (o_trace o) /\
  first_line_is_from hello_world = true /\
  mbox_or_mmdf MUTT_MBOX = true /\
  forall flags r, In (EvCopyHdr flags r) (o_trace o) ->
                  flags = Z.lor CH_NOLEN (Z.lor CH_FROM CH_FORCE_FROM).
Proof.
  assert (Hopen : In (EvFopen "/tmp/neomutt-1" (Some hello_world))
            (o_trace (edit_or_view_one_message true MUTT_MBOX (seen_message 1)
                        (good_edit "/tmp/neomutt-1") empty_world)))
    by (vm_compute; here).
  assert (Hnew : In (EvMsgOpenNew (mkEmail 1 false false false false true) 0 true)
            (o_trace (edit_or_view_one_message true MUTT_MBOX (seen_message 1)
                        (good_edit "/tmp/neomutt-1") empty_world)))
    by (vm_compute; here).
  split; [exact Hopen|]. split; [exact Hnew|].
  split; [reflexivity|]. split; [reflexivity|].
  apply (header_mode_by_first_line true MUTT_MBOX (seen_message 1)
           (good_edit "/tmp/neomutt-1") empty_world hello_world
           (mkEmail 1 false false false false true) 0 true Hopen Hnew);
    reflexivity.
Defined.

Lemma batch_without_failure_returns_0_witness :
  let r := edit_or_view_message true three_messages None nobody_edits
             empty_world in
  map (fun c => (fst c, o_rc (snd c))) (b_calls r) = [(0%nat, 1); (2%nat, 1)] /\
  b_rc r = 0.
Proof.
  split; [vm_compute; reflexivity|].
  apply (batch_without_failure_returns_0 true nobody_edits three_messages
           empty_world).
  intros i o Hin.
  assert (Hb : forallb (fun c => negb (failed c))
                 (b_calls (edit_or_view_message true three_messages None
                             nobody_edits empty_world)) = true)
    by (vm_compute; reflexivity).
  rewrite forallb_forall in Hb. specialize (Hb _ Hin).
  unfold failed in Hb. cbn [snd] in Hb.
  apply negb_true_iff, Z.eqb_neq in Hb. exact Hb.
Defined.

(** Without any tagged message no call is made and the result is 0. *)
Example batch_without_tagged_message :
  let r := edit_or_view_message true
             (mkMailbox MUTT_MBOX [untagged_message 1; untagged_message 2])
             None nobody_edits empty_world in
  b_calls r = [] /\ b_rc r = 0.
Proof. vm_compute. auto. Qed.

(** The batch scenario of the spec: three tagged messages, the commit of
    the second fails.  The first edit is committed and kept, the second
    call returns -1 and so does the driver, the third message is never
    worked on. *)
Example batch_stops_on_failure :
  let m := mkMailbox MUTT_MBOX [seen_message 1; seen_message 2; seen_message 3] in
  let r := edit_or_view_message true m None second_commit_fails empty_world in
  b_rc r = -1 /\
  map (fun c => (fst c, o_rc (snd c))) (b_calls r) = [(0%nat, 0); (1%nat, -1)] /\
  emails (b_mailbox r) =
    [mkEmail 1 true true true true false; seen_message 2; seen_message 3] /\
  length (store (b_world r)) = 1%nat /\
  fs (b_world r) !! "/tmp/neomutt-0" = None /\
  is_Some (fs (b_world r) !! "/tmp/neomutt-1") /\
  fs (b_world r) !! "/tmp/neomutt-2" = None.
Proof. vm_compute. repeat split; eauto. Qed.

Lemma committed_marks_original_witness :
  let o := edit_or_view_one_message true MUTT_MBOX (seen_message 1)
             (good_edit "/tmp/neomutt-1") empty_world in
  o_rc o = 0 /\
  deleted (o_cur o) = true /\ purge (o_cur o) = true /\
  read (o_cur o) = true /\ tagged (o_cur o) = false.
Proof.
  intros o.
  assert (Hrc : o_rc o = 0) by (vm_compute; reflexivity).
  split; [exact Hrc|].
  destruct (committed_marks_original true MUTT_MBOX (seen_message 1)
              (good_edit "/tmp/neomutt-1") empty_world) as [Hc _].
  destruct (Hc Hrc) as (_ & _ & _ & Hd & Hp & Hr & _ & Ht).
  auto.
Defined.

Lemma read_old_bracket_witness :
  let o := edit_or_view_one_message true MUTT_MBOX (seen_message 1)
             (good_edit "/tmp/neomutt-1") empty_world in
  let seen := mkEmail 1 false false false false true in
  In (EvMsgOpenNew seen 0 true) (o_trace o) /\
  read seen = false /\ old seen = false /\
  seen = set_old false (set_read false (seen_message 1)).
Proof.
  intros o seen.
  assert (Hin : In (EvMsgOpenNew seen 0 true) (o_trace o))
    by (vm_compute; here).
  split; [exact Hin|].
  destruct (read_old_bracket true MUTT_MBOX (seen_message 1)
              (good_edit "/tmp/neomutt-1") empty_world) as [Hnew _].
  exact (Hnew seen 0 true Hin).
Defined.

Lemma batch_driver_witness :
  let m := mkMailbox MUTT_MBOX
             [seen_message 1; seen_message 2; seen_message 3] in
  let r := edit_or_view_message true m None second_commit_fails empty_world in
  map fst (b_calls r) = [0%nat; 1%nat] /\
  existsb failed (b_calls r) = true /\
  b_rc r = -1 /\
  emails (b_mailbox r) !! 2%nat = Some (seen_message 3).
Proof.
  intros m r.
  assert (Hv : map fst (b_calls r) = [0%nat; 1%nat])
    by (vm_compute; reflexivity).
  assert (Hf : existsb failed (b_calls r) = true)
    by (vm_compute; reflexivity).
  split; [exact Hv|]. split; [exact Hf|].
  destruct (batch_driver true second_commit_fails m empty_world)
    as (_ & _ & _ & _ & Hrc & _ & Hother & _).
  split.
  - apply Hrc. apply existsb_exists in Hf. destruct Hf as (c & Hin & Hc).
    exists c. split; [exact Hin|]. apply Z.eqb_eq. exact Hc.
  - change (emails (b_mailbox r) !! 2%nat = emails m !! 2%nat).
    apply Hother. fold r. rewrite Hv.
    intros [Hj|[Hj|[]]]; discriminate Hj.
Defined.

Lemma folder_creation_failure_witness :
  let env := without_folder (good_edit "/tmp/neomutt-1") in
  newfolder_ok env = false /\
  edit_or_view_one_message true MUTT_MBOX (seen_message 1) env world_with_notes =
  mkOutcome (-1) (seen_message 1) world_with_notes
    [EvNewFolder "/tmp/neomutt-1" MUTT_MBOX false;
     EvError "could not create temporary folder: %s"].
Proof.
  split; [reflexivity|].
  apply (folder_creation_failure true MUTT_MBOX (seen_message 1)
           (without_folder (good_edit "/tmp/neomutt-1")) world_with_notes).
  reflexivity.
Defined.


Lemma committed_record_content_witness :
  let o := edit_or_view_one_message true MUTT_MBOX (seen_message 1)
             (good_edit "/tmp/neomutt-1") empty_world in
  let seen := mkEmail 1 false false false false true in
  In (EvFopen "/tmp/neomutt-1" (Some hello_world)) (o_trace o) /\
  In (EvMsgOpenNew seen 0 true) (o_trace o) /\
  In (EvCopyHdr 20496 0) (o_trace o) /\
  In (EvMsgCommit 0) (o_trace o) /\
  exists first hdr rest,
    open_new (good_edit "/tmp/neomutt-1") seen 0 = Some first /\
    copy_hdr (good_edit "/tmp/neomutt-1") hello_world 20496 = (0, (hdr, rest)) /\
    store (o_world o) =
      store empty_world ++
      [first ++ hdr ++ x0a :: copy_stream (good_edit "/tmp/neomutt-1") rest] /\
    o_rc o = 0.
Proof.
  intros o seen.
  assert (H1 : In (EvFopen "/tmp/neomutt-1" (Some hello_world)) (o_trace o))
    by (vm_compute; here).
  assert (H2 : In (EvMsgOpenNew seen 0 true) (o_trace o))
    by (vm_compute; here).
  assert (H3 : In (EvCopyHdr 20496 0) (o_trace o)) by (vm_compute; here).
  assert (H4 : In (EvMsgCommit 0) (o_trace o)) by (vm_compute; here).
  split; [exact H1|]. split; [exact H2|]. split; [exact H3|].
  split; [exact H4|].
  exact (committed_record_content true MUTT_MBOX (seen_message 1)
           (good_edit "/tmp/neomutt-1") empty_world hello_world seen 0 20496
           H1 H2 H3 H4).
Defined.

Lemma extraction_flags_witness :
  let o := edit_or_view_one_message true MUTT_MAILDIR (seen_message 1)
             (good_edit "/tmp/neomutt-1") empty_world in
  In (EvAppendMessage 4160 0) (o_trace o) /\
  4160 = Z.lor CH_NOLEN (if mbox_or_mmdf MUTT_MAILDIR then 0 else CH_NOSTATUS) /\
  0 = append_rc (good_edit "/tmp/neomutt-1").
Proof.
  intros o.
  assert (H1 : In (EvAppendMessage 4160 0) (o_trace o)) by (vm_compute; here).
  split; [exact H1|].
  exact (extraction_flags true MUTT_MAILDIR (seen_message 1)
           (good_edit "/tmp/neomutt-1") empty_world 4160 0 H1).
Defined.

Lemma view_mode_detection_witness :
  let o := edit_or_view_one_message false MUTT_MBOX (seen_message 1)
             (good_edit "/tmp/neomutt-1") empty_world in
  let sb2 := mkStat 33 105 0x100 in
  post_edit (o_trace o) = Some (100, Some sb2) /\
  st_size sb2 <> 0 /\
  o_rc o = 1 /\ o_cur o = seen_message 1 /\
  fs (o_world o) !! "/tmp/neomutt-1" = None /\
  (st_mtime sb2 <> 100 <->
   In (EvMessage "Message of read-only mailbox modified! Ignoring changes.")
      (o_trace o)).
Proof.
  intros o sb2.
  assert (H1 : post_edit (o_trace o) = Some (100, Some sb2))
    by (vm_compute; reflexivity).
  assert (H2 : st_size sb2 <> 0) by (vm_compute; discriminate).
  split; [exact H1|]. split; [exact H2|].
  exact (view_mode_detection MUTT_MBOX (seen_message 1)
           (good_edit "/tmp/neomutt-1") empty_world 100 sb2 H1 H2).
Defined.

Lemma post_edit_stat_failure_witness :
  let env := sample_env "/tmp/neomutt-1" false remove_file (Some []) 0 0 in
  let o := edit_or_view_one_message true MUTT_MBOX (seen_message 1) env
             empty_world in
  post_edit (o_trace o) = Some (100, None) /\
  o_rc o = -1 /\ o_cur o = seen_message 1 /\
  store (o_world o) = store empty_world /\
  no_reintegration (o_trace o) /\
  In (EvError "Can't stat %s: %s") (o_trace o) /\
  ~ In (EvUnlink "/tmp/neomutt-1") (o_trace o).
Proof.
  intros env o.
  assert (H1 : post_edit (o_trace o) = Some (100, None))
    by (vm_compute; reflexivity).
  split; [exact H1|].
  exact (post_edit_stat_failure true MUTT_MBOX (seen_message 1) env
           empty_world 100 H1).
Defined.

Lemma modified_edit_is_reintegrated_witness :
  let o := edit_or_view_one_message true MUTT_MBOX (seen_message 1)
             (good_edit "/tmp/neomutt-1") empty_world in
  let sb2 := mkStat 33 105 0x180 in
  post_edit (o_trace o) = Some (100, Some sb2) /\
  st_size sb2 <> 0 /\ st_mtime sb2 <> 100 /\
  exists x, In (EvFopen "/tmp/neomutt-1" x) (o_trace o).
Proof.
  intros o sb2.
  assert (H1 : post_edit (o_trace o) = Some (100, Some sb2))
    by (vm_compute; reflexivity).
  assert (H2 : st_size sb2 <> 0) by (vm_compute; discriminate).
  assert (H3 : st_mtime sb2 <> 100) by (vm_compute; discriminate).
  split; [exact H1|]. split; [exact H2|]. split; [exact H3|].
  exact (modified_edit_is_reintegrated MUTT_MBOX (seen_message 1)
           (good_edit "/tmp/neomutt-1") empty_world 100 sb2 H1 H2 H3).
Defined.

Lemma extraction_failure_keeps_surrogate_witness :
  let env := without_extraction (good_edit "/tmp/neomutt-1") in
  let o := edit_or_view_one_message true MUTT_MBOX (seen_message 1) env
             empty_world in
  newfolder_ok env = true /\
  (append_rc env = -1 \/ stat1_fails env = true) /\
  o_rc o = -1 /\ o_cur o = seen_message 1 /\
  store (o_world o) = store empty_world /\
  fs (o_world o) !! "/tmp/neomutt-1" = Some (extracted env) /\
  ~ In (EvEditFile "/tmp/neomutt-1") (o_trace o) /\
  In (EvMessage "Error. Preserving temporary file: %s") (o_trace o).
Proof.
  intros env o.
  split; [reflexivity|]. split; [left; reflexivity|].
  apply (extraction_failure_keeps_surrogate true MUTT_MBOX (seen_message 1)
           env empty_world); [reflexivity | left; reflexivity].
Defined.

Lemma view_mode_leaves_message_witness :
  let o := edit_or_view_one_message false MUTT_MBOX (seen_message 1)
             (good_edit "/tmp/neomutt-1") empty_world in
  truncate_fails (good_edit "/tmp/neomutt-1") = false /\
  o_rc o <> 0 /\ o_cur o = seen_message 1 /\
  store (o_world o) = store empty_world /\
  no_reintegration (o_trace o) /\
  forall flag bf, ~ In (EvSetFlag flag bf) (o_trace o).
Proof.
  intros o. split; [reflexivity|].
  apply (view_mode_leaves_message false MUTT_MBOX (seen_message 1)
           (good_edit "/tmp/neomutt-1") empty_world); reflexivity.
Defined.

Lemma trim_length_witness :
  let o := edit_or_view_one_message true MUTT_MBOX (seen_message 1)
             (good_edit "/tmp/neomutt-1") empty_world in
  trim_call (o_trace o) = Some (28, Some (27, 0)) /\
  (28 = 0 -> Some (27, 0) = None) /\
  (28 <> 0 -> exists r, Some (27, 0) = Some (28 - 1, r)).
Proof.
  intros o.
  assert (H1 : trim_call (o_trace o) = Some (28, Some (27, 0)))
    by (vm_compute; reflexivity).
  split; [exact H1|].
  exact (trim_length true MUTT_MBOX (seen_message 1)
           (good_edit "/tmp/neomutt-1") empty_world 28 (Some (27, 0)) H1).
Defined.

Lemma reintegration_hard_failures_witness :
  let env := sample_env "/tmp/neomutt-1" false append_world (Some []) 0 (-1) in
  let o := edit_or_view_one_message true MUTT_MBOX (seen_message 1) env
             empty_world in
  In (EvMsgCommit (-1)) (o_trace o) /\
  o_rc o = -1 /\ o_cur o = seen_message 1 /\
  is_Some (fs (o_world o) !! "/tmp/neomutt-1") /\
  store (o_world o) = store empty_world.
Proof.
  intros env o.
  assert (H1 : In (EvMsgCommit (-1)) (o_trace o)) by (vm_compute; here).
  split; [exact H1|].
  exact (reintegration_hard_failures true MUTT_MBOX (seen_message 1) env
           empty_world (or_intror H1)).
Defined.

Lemma separator_test_reads_first_line_witness :
  Forall (fun b => b <> x0a) from_line /\
  Z.of_nat (length from_line) < STRING - 1 /\
  first_line_is_from (from_line ++ x0a :: drop 9 hello_world) =
  is_from (from_line ++ [x0a]).
Proof.
  assert (H1 : Forall (fun b => b <> x0a) from_line)
    by (repeat constructor; discriminate).
  assert (H2 : Z.of_nat (length from_line) < STRING - 1)
    by (vm_compute; reflexivity).
  split; [exact H1|]. split; [exact H2|].
  exact (separator_test_reads_first_line from_line (drop 9 hello_world) H1 H2).
Defined.

Lemma batch_without_tagged_is_noop_witness :
  let m := mkMailbox MUTT_MBOX [untagged_message 1; untagged_message 2] in
  (forall i, message_is_tagged m i = false) /\
  edit_or_view_message true m None nobody_edits world_with_notes =
  mkBatch 0 m None world_with_notes [] [].
Proof.
  intros m.
  assert (H1 : forall i, message_is_tagged m i = false)
    by (intros [|[|i]]; reflexivity).
  split; [exact H1|].
  exact (batch_without_tagged_is_noop true m nobody_edits world_with_notes H1).
Defined.
